(** * The Claude Desktop restart server: a shallow embedding

    Two entry points of the repository are modelled:

    - [Canonical]: [src/mcp_server_restart/server.py], the packaged server
      (exact match on the process name, every match is terminated);
    - [Legacy]: the top-level [server.py] (substring match, the scan stops
      at the first match).

    The operating system is an explicit [world]: the process table that
    [psutil.process_iter] yields, what each process does when it is asked
    to terminate and when it is waited for, what [subprocess.Popen] does,
    the clock, and the request context that the legacy server reads its
    progress token from.  A handler is a function from the world to a [run]: what
    the handler returns or raises, and the trace of the side effects it
    performed, in order. *)

From Stdlib Require Import String Ascii List Bool ZArith Lia Arith.
From Stdlib Require Import DecimalString.
Import ListNotations.

Local Open Scope string_scope.
Local Open Scope list_scope.

Set Implicit Arguments.

(** ** Python values and built-ins used by the handlers *)

Module Py.

(** [needle in hay] on [str]. *)
Fixpoint contains (needle hay : string) : bool :=
  match hay with
  | EmptyString => String.prefix needle EmptyString
  | String _ rest => String.prefix needle hay || contains needle rest
  end.

(** [s.startswith(p)]. *)
Definition startswith (s p : string) : bool := String.prefix p s.

(** [s.replace(old, new)]: every non-overlapping occurrence of [old],
    scanning from the left, is replaced.  [skip] counts the characters of
    the occurrence being consumed. *)
Fixpoint replace_from (old new : string) (skip : nat) (s : string) : string :=
  match s with
  | EmptyString => EmptyString
  | String c rest =>
      match skip with
      | S k => replace_from old new k rest
      | O =>
          if String.prefix old s
          then new ++ replace_from old new (String.length old - 1) rest
          else String c (replace_from old new 0 rest)
      end
  end.

(** With an empty [old] Python puts [new] before every character and at
    the end. *)
Fixpoint intersperse_all (new s : string) : string :=
  match s with
  | EmptyString => new
  | String c rest => new ++ String c (intersperse_all new rest)
  end.

Definition replace (s old new : string) : string :=
  match old with
  | EmptyString => intersperse_all new s
  | String _ _ => replace_from old new 0 s
  end.

(** [str(n)] for an [int]. *)
Definition str_of_int (z : Z) : string := NilZero.string_of_int (Z.to_int z).

(** [str(len(l))]. *)
Definition str_of_len {A} (l : list A) : string :=
  str_of_int (Z.of_nat (List.length l)).

(** The exception classes that the handlers raise or name in an
    [except] clause; [RuntimeError] stands for every other subclass of
    [Exception]. *)
Inductive exn_class :=
| TimeoutExpired   (* psutil.TimeoutExpired *)
| NoSuchProcess    (* psutil.NoSuchProcess *)
| AccessDenied     (* psutil.AccessDenied *)
| ValueError
| AttributeError
| LookupError
| RuntimeError.

(** An exception object: its class and [str(e)]. *)
Record exn := Exn { exn_cls : exn_class; exn_str : string }.

Definition exn_class_eqb (a b : exn_class) : bool :=
  match a, b with
  | TimeoutExpired, TimeoutExpired
  | NoSuchProcess, NoSuchProcess
  | AccessDenied, AccessDenied
  | ValueError, ValueError
  | AttributeError, AttributeError
  | LookupError, LookupError
  | RuntimeError, RuntimeError => true
  | _, _ => false
  end.

(** An argument that the annotation says is a [str]; the canonical
    handler checks it with [isinstance]. *)
Inductive arg :=
| Str (s : string)
| Obj (repr : string).   (* any object that is not a str, with its str() *)

Definition str (a : arg) : string :=
  match a with Str s => s | Obj r => r end.

(** [x is not None]. *)
Definition is_not_none {A} (x : option A) : bool :=
  match x with Some _ => true | None => false end.

End Py.

(** ** json.dumps on a flat dict *)

Module Json.

Inductive value :=
| Null
| Bool (b : bool)
| Int (z : Z)
| Text (s : string).

(** A dict keeps its insertion order. *)
Definition dict := list (string * value).

Definition hex_digit (n : nat) : ascii :=
  match n with
  | 0 => "0" | 1 => "1" | 2 => "2" | 3 => "3" | 4 => "4"
  | 5 => "5" | 6 => "6" | 7 => "7" | 8 => "8" | 9 => "9"
  | 10 => "a" | 11 => "b" | 12 => "c" | 13 => "d" | 14 => "e"
  | _ => "f"
  end%char.

Definition quote : ascii := ascii_of_nat 34.
Definition backslash : ascii := ascii_of_nat 92.
Definition newline : ascii := ascii_of_nat 10.

Definition char (c : ascii) : string := String c EmptyString.

(** [ensure_ascii] escaping: the quote and the backslash, the short
    escapes, and [\u00xx] for everything outside space..tilde
    (a character is a code point below 256 here). *)
Definition escape_char (c : ascii) : string :=
  let n := nat_of_ascii c in
  if Nat.eqb n 34 then String backslash (char quote)
  else if Nat.eqb n 92 then String backslash (char backslash)
  else if Nat.eqb n 10 then String backslash "n"
  else if Nat.eqb n 13 then String backslash "r"
  else if Nat.eqb n 9 then String backslash "t"
  else if Nat.eqb n 8 then String backslash "b"
  else if Nat.eqb n 12 then String backslash "f"
  else if (Nat.leb 32 n && Nat.leb n 126)%bool then char c
  else String backslash
         ("u00" ++ String (hex_digit (n / 16)) (char (hex_digit (n mod 16)))).

Fixpoint escape (s : string) : string :=
  match s with
  | EmptyString => EmptyString
  | String c rest => escape_char c ++ escape rest
  end.

(** Reading back one escaped character: the inverse of [escape_char],
    by which a reply determines the outcome it was made from. *)
Definition hex_value (c : ascii) : nat :=
  let n := nat_of_ascii c in
  if Nat.leb 97 n then n - 87 else n - 48.

Definition unescape_char (s : string) : option (ascii * string) :=
  match s with
  | EmptyString => None
  | String c rest =>
      if negb (Nat.eqb (nat_of_ascii c) 92) then Some (c, rest)
      else
        match rest with
        | EmptyString => None
        | String k rest =>
            let n := nat_of_ascii k in
            if Nat.eqb n 110 then Some (ascii_of_nat 10, rest)
            else if Nat.eqb n 114 then Some (ascii_of_nat 13, rest)
            else if Nat.eqb n 116 then Some (ascii_of_nat 9, rest)
            else if Nat.eqb n 98 then Some (ascii_of_nat 8, rest)
            else if Nat.eqb n 102 then Some (ascii_of_nat 12, rest)
            else if Nat.eqb n 117 then
              match rest with
              | String _ (String _ (String h (String l rest))) =>
                  Some (ascii_of_nat (16 * hex_value h + hex_value l), rest)
              | _ => None
              end
            else Some (k, rest)
        end
  end.

Definition encode_string (s : string) : string :=
  String quote (escape s ++ char quote).

Definition encode (v : value) : string :=
  match v with
  | Null => "null"
  | Bool true => "true"
  | Bool false => "false"
  | Int z => Py.str_of_int z
  | Text s => encode_string s
  end.

Definition item (kv : string * value) : string :=
  encode_string (fst kv) ++ ": " ++ encode (snd kv).

Fixpoint spaces (n : nat) : string :=
  match n with O => EmptyString | S k => String " " (spaces k) end.

(** [json.dumps(d)] when [indent] is [None], [json.dumps(d, indent=k)]
    otherwise. *)
Definition dumps (indent : option nat) (d : dict) : string :=
  match d with
  | [] => "{}"
  | _ :: _ =>
      match indent with
      | None => "{" ++ String.concat ", " (map item d) ++ "}"
      | Some k =>
          let nl := String newline (spaces k) in
          "{" ++ nl ++ String.concat ("," ++ nl) (map item d)
              ++ char newline ++ "}"
      end
  end.

End Json.

(** ** The operating system as seen by one request *)

(** What reading [proc.info['name']] and testing it does inside the scan
    loop: it yields the name, or the loop body raises.  A name that psutil
    could not read is [None]: the comparison of the canonical server is then
    false, as for any other name, and the [in] of the legacy server raises
    a [TypeError], which is a [Raised]. *)
Inductive name_read :=
| Named (name : string)
| Raised (e : Py.exn).

(** One entry of [psutil.process_iter(['pid', 'name'])].  [terminate] and
    [wait] hold the exception that the call raises, if it raises one. *)
Record proc := Proc {
  pid : Z;
  info_name : name_read;
  terminate : option Py.exn;
  wait : option Py.exn
}.

(** A progress token of the request, [str | int]. *)
Inductive token :=
| TokenStr (s : string)
| TokenInt (z : Z).

(** The [meta] of a request, when the request has a [_meta]. *)
Record request_meta := Meta {
  progressToken : option token
}.

(** What reading [server.request_context] gives: outside a request the
    read raises ([e], a [LookupError]); inside one it is the context, whose
    [meta] is [None] when the request has no [_meta]. *)
Inductive RequestContext :=
| NoRequest (e : Py.exn)
| Request (meta : option request_meta).

Record world := World {
  process_iter : list proc;            (* enumeration order *)
  popen : option Py.exn;               (* what subprocess.Popen raises *)
  now_isoformat : string;              (* datetime.now().isoformat() *)
  request_context : RequestContext     (* server.request_context *)
}.

(** Side effects, in the order they happen. *)
Inductive event :=
| EvProcessIter
| EvTerminate (p : Z)
| EvWait (p : Z) (timeout : Z)
| EvPopen (argv : list string)
| EvProgress (progress total : Z).

Definition is_popen (e : event) : bool :=
  match e with EvPopen _ => true | _ => false end.

(** How many times the launch primitive was invoked. *)
Definition popen_calls (t : list event) : nat := List.length (filter is_popen t).

(** The pids that were sent a terminate signal, in order. *)
Definition terminated_pids (t : list event) : list Z :=
  flat_map (fun e => match e with EvTerminate p => [p] | _ => [] end) t.

(** ** Running a handler: result or exception, and the trace *)

Record run (A : Type) := Run {
  ret : Py.exn + A;
  trace : list event
}.

Definition pure {A} (a : A) : run A := Run (inr a) [].

Definition raise {A} (e : Py.exn) : run A := Run (inl e) [].

Definition tell (ev : event) : run unit := Run (inr tt) [ev].

Definition bind {A B} (m : run A) (k : A -> run B) : run B :=
  match ret m with
  | inl e => Run (inl e) (trace m)
  | inr a => let r := k a in Run (ret r) (trace m ++ trace r)
  end.

(** [try: m  except Exception as e: handler e]. *)
Definition try_except {A} (m : run A) (handler : Py.exn -> run A) : run A :=
  match ret m with
  | inl e => let r := handler e in Run (ret r) (trace m ++ trace r)
  | inr _ => m
  end.

(** A call that raises [e] when the world says so. *)
Definition may_raise (o : option Py.exn) : run unit :=
  match o with
  | Some e => raise e
  | None => pure tt
  end.

Declare Scope run_scope.
Delimit Scope run_scope with run.
Notation "x <- m ;; k" := (bind m (fun x => k))
  (at level 61, m at next level, right associativity) : run_scope.
Notation "m ;; k" := (bind m (fun _ => k))
  (at level 61, right associativity) : run_scope.
Local Open Scope run_scope.

(** ** What both servers share *)

(** [result = {"status": ..., "message": ...}]. *)
Record outcome := Outcome {
  status : string;
  message : string
}.

Definition set_status (r : outcome) (s : string) : outcome :=
  Outcome s (message r).

Definition set_message (r : outcome) (m : string) : outcome :=
  Outcome (status r) m.

(** [result["message"] += m]. *)
Definition add_message (r : outcome) (m : string) : outcome :=
  Outcome (status r) (message r ++ m).

Definition outcome_dict (r : outcome) : Json.dict :=
  [("status", Json.Text (status r)); ("message", Json.Text (message r))].

(** [types.TextContent(type=..., text=...)]. *)
Record TextContent := mkTextContent {
  type : string;
  text : string
}.

(** [[types.TextContent(type="text", text=json.dumps(result, indent=2))]]. *)
Definition reply (r : outcome) : list TextContent :=
  [mkTextContent "text" (Json.dumps (Some 2) (outcome_dict r))].

(** The status dict of [handle_read_resource]. *)
Record status_report := Status {
  running : bool;
  status_pid : option Z;
  timestamp : string
}.

Definition status_dict (s : status_report) : Json.dict :=
  [("running", Json.Bool (running s));
   ("pid", match status_pid s with Some p => Json.Int p | None => Json.Null end);
   ("timestamp", Json.Text (timestamp s))].

(** [except (psutil.NoSuchProcess, psutil.AccessDenied): continue]. *)
Definition scan_skips (e : Py.exn) : bool :=
  match Py.exn_cls e with
  | Py.NoSuchProcess | Py.AccessDenied => true
  | _ => false
  end.

(** [proc.terminate(); proc.wait(timeout=5)]. *)
Definition terminate_and_wait (p : proc) : run unit :=
  tell (EvTerminate (pid p)) ;;
  may_raise (terminate p) ;;
  tell (EvWait (pid p) 5) ;;
  may_raise (wait p).

(** [subprocess.Popen(['open', '-a', 'Claude'])]. *)
Definition launch (w : world) : run unit :=
  tell (EvPopen ["open"; "-a"; "Claude"]) ;;
  may_raise (popen w).

(** Where a block of the handler leaves control: at a [return], or at its
    end. *)
Inductive flow :=
| Returned (r : outcome)
| Fallthrough (r : outcome).

(** [types.Resource(uri=..., name=..., description=..., mimeType=...)].
    The [uri] of a resource is a URL object, not a [str]: the canonical
    server builds it with [types.AnyUrl], and [types.Resource] makes one of
    the [str] that the legacy server gives it. *)
Module Resource.
Record t := make {
  uri : Py.arg;
  name : string;
  description : string;
  mimeType : string
}.
End Resource.

(** [types.Tool(name=..., description=..., inputSchema={...})]; the schema
    is the dict with the keys "type", "properties" and "required". *)
Module Tool.
Record schema := make_schema {
  type : string;
  properties : list (string * Json.value);
  required : list string
}.
Record t := make {
  name : string;
  description : string;
  inputSchema : schema
}.
End Tool.

(** ** src/mcp_server_restart/server.py *)

Module Canonical.

Definition handle_list_resources : list Resource.t :=
  [Resource.make (Py.Obj "claude://status")
     "Claude Desktop Status"
     "Current status of the Claude Desktop application"
     "application/json"].

Definition handle_list_tools : list Tool.t :=
  [Tool.make "restart_claude"
     "Restart the Claude Desktop application"
     (Tool.make_schema "object" [] [])].

(** The scan loop of both handlers:
    [if proc.info['name'] == 'Claude Desktop': claude_processes.append(proc)]
    under [except (NoSuchProcess, AccessDenied): continue]. *)
Fixpoint scan (procs claude_processes : list proc) : Py.exn + list proc :=
  match procs with
  | [] => inr claude_processes
  | proc :: rest =>
      match info_name proc with
      | Named name =>
          if String.eqb name "Claude Desktop"
          then scan rest (claude_processes ++ [proc])
          else scan rest claude_processes
      | Raised e =>
          if scan_skips e then scan rest claude_processes else inl e
      end
  end.

Definition find_claude_processes (w : world) : run (list proc) :=
  tell EvProcessIter ;;
  match scan (process_iter w) [] with
  | inl e => raise e
  | inr claude_processes => pure claude_processes
  end.

(** The body of the [try] of [handle_read_resource]. *)
Definition read_status (w : world) (uri : Py.arg) : run string :=
  match uri with
  | Py.Obj _ => raise (Py.Exn Py.ValueError "Unknown resource: Invalid URI scheme")
  | Py.Str uri =>
      if negb (Py.startswith uri "claude://")
      then raise (Py.Exn Py.ValueError "Unknown resource: Invalid URI scheme")
      else
        let path := Py.replace uri "claude://" EmptyString in
        if (String.eqb path EmptyString || negb (String.eqb path "status"))%bool
        then raise (Py.Exn Py.ValueError ("Unknown resource: " ++ path))
        else
          claude_processes <- find_claude_processes w ;;
          let status :=
            {| running := Nat.ltb 0 (List.length claude_processes);
               status_pid := match claude_processes with
                             | first :: _ => Some (pid first)
                             | [] => None
                             end;
               timestamp := now_isoformat w |} in
          pure (Json.dumps None (status_dict status))
  end.

(** [except Exception as e]: re-raised as it is when its text has
    "Unknown resource" in it, wrapped in a [ValueError] otherwise. *)
Definition handle_read_resource (w : world) (uri : Py.arg) : run string :=
  try_except (read_status w uri)
    (fun e =>
       if negb (Py.contains "Unknown resource" (Py.exn_str e))
       then raise (Py.Exn Py.ValueError ("Unknown resource: " ++ Py.exn_str e))
       else raise e).

(** The [for] loop over the matches, with its inner [try]. *)
Fixpoint terminate_each (procs : list proc) (result : outcome) : run flow :=
  match procs with
  | [] => pure (Fallthrough result)
  | proc :: rest =>
      step <- try_except
                (terminate_and_wait proc ;;
                 pure (Fallthrough
                         (add_message result
                            ("Terminated Claude process "
                               ++ Py.str_of_int (pid proc) ++ ". "))))
                (fun e =>
                   if Py.exn_class_eqb (Py.exn_cls e) Py.TimeoutExpired
                   then pure (Returned
                                (set_message (set_status result "error")
                                   "Failed to terminate Claude: timeout"))
                   else pure (Returned
                                (set_message (set_status result "error")
                                   ("Failed to terminate Claude: "
                                      ++ Py.exn_str e)))) ;;
      match step with
      | Returned r => pure (Returned r)
      | Fallthrough r => terminate_each rest r
      end
  end.

(** [if claude_processes:] with the outer [try]. *)
Definition terminate_existing (claude_processes : list proc) (result : outcome)
  : run flow :=
  match claude_processes with
  | [] => pure (Fallthrough result)
  | _ :: _ =>
      try_except
        (step <- terminate_each claude_processes result ;;
         match step with
         | Returned r => pure (Returned r)
         | Fallthrough r =>
             pure (Fallthrough
                     (add_message r
                        ("Terminated " ++ Py.str_of_len claude_processes
                           ++ " existing Claude process(es). ")))
         end)
        (fun e =>
           pure (Returned
                   (set_message (set_status result "error")
                      ("Failed to terminate Claude: " ++ Py.exn_str e))))
  end.

(** [# Start new Claude process]. *)
Definition start_new (w : world) (result : outcome) : run outcome :=
  try_except
    (launch w ;; pure (add_message result "Started new Claude process."))
    (fun _ => pure (set_message (set_status result "error")
                      "Failed to start Claude")).

Definition handle_call_tool {A} (w : world) (name : string) (arguments : A)
  : run (list TextContent) :=
  if negb (String.eqb name "restart_claude")
  then raise (Py.Exn Py.ValueError ("Unknown tool: " ++ name))
  else
    let result := {| status := "success"; message := EmptyString |} in
    claude_processes <- find_claude_processes w ;;
    step <- terminate_existing claude_processes result ;;
    match step with
    | Returned r => pure (reply r)
    | Fallthrough r =>
        r <- start_new w r ;;
        pure (reply r)
    end.

End Canonical.

(** ** server.py *)

Module Legacy.

Definition handle_list_resources : list Resource.t :=
  [Resource.make (Py.Obj "claude://status")
     "Claude Desktop Status"
     "Current status of Claude Desktop application"
     "application/json"].

Definition handle_list_tools : list Tool.t :=
  [Tool.make "restart_claude"
     "Restart the Claude Desktop application"
     (Tool.make_schema "object" [] [])].

(** The scan loop: [if 'Claude' in proc.info['name']: claude_process = proc; break]. *)
Fixpoint scan (procs : list proc) : Py.exn + option proc :=
  match procs with
  | [] => inr None
  | proc :: rest =>
      match info_name proc with
      | Named name =>
          if Py.contains "Claude" name then inr (Some proc) else scan rest
      | Raised e =>
          if scan_skips e then scan rest else inl e
      end
  end.

Definition find_claude_process (w : world) : run (option proc) :=
  tell EvProcessIter ;;
  match scan (process_iter w) with
  | inl e => raise e
  | inr claude_process => pure claude_process
  end.

Definition handle_read_resource (w : world) (uri : Py.arg) : run string :=
  if match uri with
     | Py.Str s => negb (String.eqb s "claude://status")
     | Py.Obj _ => true
     end
  then raise (Py.Exn Py.ValueError ("Unknown resource: " ++ Py.str uri))
  else
    claude_process <- find_claude_process w ;;
    let status :=
      {| running := match claude_process with Some _ => true | None => false end;
         status_pid := match claude_process with
                       | Some p => Some (pid p)
                       | None => None
                       end;
         timestamp := now_isoformat w |} in
    pure (Json.dumps (Some 2) (status_dict status)).

(** A token is falsy when it is [None], [0] or the empty string. *)
Definition truthy (t : option token) : bool :=
  match t with
  | None => false
  | Some (TokenStr s) => negb (String.eqb s EmptyString)
  | Some (TokenInt z) => negb (Z.eqb z 0)
  end.

(** [server.request_context.meta.progressToken]: the attribute read fails
    on the [None] that is the [meta] of a request without [_meta]. *)
Definition read_progress_token (w : world) : run (option token) :=
  match request_context w with
  | NoRequest e => raise e
  | Request None =>
      raise (Py.Exn Py.AttributeError
               "'NoneType' object has no attribute 'progressToken'")
  | Request (Some meta) => pure (progressToken meta)
  end.

(** [if progress_token := ...: await ...send_progress_notification(...)]. *)
Definition send_progress (w : world) (progress total : Z) : run unit :=
  progress_token <- read_progress_token w ;;
  if truthy progress_token then tell (EvProgress progress total) else pure tt.

(** [if claude_process:] with its [try]. *)
Definition terminate_existing (claude_process : option proc) (result : outcome)
  : run flow :=
  match claude_process with
  | None => pure (Fallthrough result)
  | Some claude_process =>
      try_except
        (terminate_and_wait claude_process ;;
         pure (Fallthrough
                 (add_message result "Terminated existing Claude process. ")))
        (fun e =>
           pure (Returned
                   (set_message (set_status result "error")
                      ("Failed to terminate Claude: " ++ Py.exn_str e))))
  end.

Definition start_new (w : world) (result : outcome) : run outcome :=
  try_except
    (launch w ;; pure (add_message result "Started new Claude process."))
    (fun e => pure (set_message (set_status result "error")
                      ("Failed to start Claude: " ++ Py.exn_str e))).

Definition handle_call_tool {A} (w : world) (name : string) (arguments : A)
  : run (list TextContent) :=
  if negb (String.eqb name "restart_claude")
  then raise (Py.Exn Py.ValueError ("Unknown tool: " ++ name))
  else
    let result := {| status := "success"; message := EmptyString |} in
    send_progress w 0 2 ;;
    claude_process <- find_claude_process w ;;
    step <- terminate_existing claude_process result ;;
    match step with
    | Returned r => pure (reply r)
    | Fallthrough r =>
        send_progress w 1 2 ;;
        r <- start_new w r ;;
        send_progress w 2 2 ;;
        pure (reply r)
    end.

End Legacy.

(** ** The vocabulary of the specification *)

(** A matched process: its enumerated name equals the target identifier. *)
Definition matches_target (p : proc) : bool :=
  match info_name p with
  | Named name => String.eqb name "Claude Desktop"
  | Raised _ => false
  end.

(** The snapshot: the matches, in enumeration order. *)
Definition matched (table : list proc) : list proc := filter matches_target table.

(** The variant match of the legacy entry point: the name has "Claude" in it. *)
Definition matches_substring (p : proc) : bool :=
  match info_name p with
  | Named name => Py.contains "Claude" name
  | Raised _ => false
  end.

Definition matched_substring (table : list proc) : list proc :=
  filter matches_substring table.

(** What the legacy scan passes over before it reaches its first match. *)
Definition skipped_by_legacy (p : proc) : bool :=
  match info_name p with
  | Named name => negb (Py.contains "Claude" name)
  | Raised e => scan_skips e
  end.

(** A process table as the specification has it: reading a name yields the
    name, or the process has vanished or is inaccessible. *)
Definition readable (p : proc) : bool :=
  match info_name p with
  | Named _ => true
  | Raised e => scan_skips e
  end.

Definition scan_clean (table : list proc) : bool := forallb readable table.

(** The process exits within the timeout: neither the signal nor the wait
    raises. *)
Definition exits_in_time (p : proc) : bool :=
  match terminate p, wait p with
  | None, None => true
  | _, _ => false
  end.

Definition fails_to_terminate (p : proc) : bool := negb (exits_in_time p).

(** The per-process entries of the message, and the effects behind them. *)
Definition termination_log (procs : list proc) : string :=
  String.concat EmptyString
    (map (fun p =>
            ("Terminated Claude process " ++ Py.str_of_int (pid p) ++ ". ")%string)
       procs).

Definition signals (procs : list proc) : list event :=
  flat_map (fun p => [EvTerminate (pid p); EvWait (pid p) 5]) procs.

Definition launch_argv : list string := ["open"; "-a"; "Claude"].

(** What asking a process to terminate and waiting for it raises: what
    [terminate()] raises, and otherwise what [wait()] raises. *)
Definition raised_by (p : proc) : option Py.exn :=
  match terminate p with
  | Some e => Some e
  | None => wait p
  end.

(** The message that the [except] clauses of the canonical loop write: a
    fixed text for a timeout, the text of the exception otherwise. *)
Definition termination_error (e : Py.exn) : string :=
  if Py.exn_class_eqb (Py.exn_cls e) Py.TimeoutExpired
  then "Failed to terminate Claude: timeout"
  else "Failed to terminate Claude: " ++ Py.exn_str e.

(** The effects of an attempt that fails: the wait is reached only when the
    signal went through. *)
Definition failed_attempt (p : proc) : list event :=
  match terminate p with
  | Some _ => [EvTerminate (pid p)]
  | None => [EvTerminate (pid p); EvWait (pid p) 5]
  end.

(** The message of the canonical server before the launch. *)
Definition restart_log (procs : list proc) : string :=
  match procs with
  | [] => EmptyString
  | _ :: _ =>
      termination_log procs
        ++ "Terminated " ++ Py.str_of_len procs ++ " existing Claude process(es). "
  end.

(** The progress notifications that were sent, in order. *)
Definition progress_sent (t : list event) : list (Z * Z) :=
  flat_map (fun e => match e with
                     | EvProgress progress total => [(progress, total)]
                     | _ => []
                     end) t.

(** The same request against another process table. *)
Definition with_table (w : world) (table : list proc) : world :=
  World table (popen w) (now_isoformat w) (request_context w).

(** [n] copies of a string, one after the other. *)
Fixpoint copies (n : nat) (s : string) : string :=
  match n with
  | O => EmptyString
  | S k => s ++ copies k s
  end.

(** ** Scenarios *)

Module Scenario.

Definition clock : string := "2024-05-01T12:00:00".

(** A request that has a [_meta] and no progress token. *)
Definition plain_request : RequestContext := Request (Some (Meta None)).

(** A process named "Claude Desktop" that exits when asked to. *)
Definition claude_desktop (p : Z) : proc :=
  Proc p (Named "Claude Desktop") None None.

Definition timeout : Py.exn :=
  Py.Exn Py.TimeoutExpired "timeout after 5 seconds (pid=12345)".

Definition no_process : world := World [] None clock plain_request.

Definition one_process : world :=
  World [claude_desktop 12345] None clock plain_request.

Definition three_processes : world :=
  World [claude_desktop 1000; claude_desktop 1001; claude_desktop 1002]
    None clock plain_request.

(** The one match does not exit within the timeout. *)
Definition wait_times_out : world :=
  World [Proc 12345 (Named "Claude Desktop") None (Some timeout)]
    None clock plain_request.

(** The second of three matches refuses the signal. *)
Definition second_refuses : world :=
  World [claude_desktop 1000;
         Proc 1001 (Named "Claude Desktop")
           (Some (Py.Exn Py.AccessDenied "psutil.AccessDenied (pid=1001)"))
           None;
         claude_desktop 1002]
    None clock plain_request.

(** The match exits, the launcher is missing. *)
Definition launch_fails : world :=
  World [claude_desktop 12345]
    (Some (Py.Exn Py.RuntimeError "[Errno 2] No such file or directory: 'open'"))
    clock plain_request.

(** Reading a name raises an error that the scan does not expect and
    whose text happens to have "Unknown resource" in it. *)
Definition scan_fault : world :=
  World [Proc 1 (Raised (Py.Exn Py.RuntimeError "Unknown resource limit")) None None]
    None clock plain_request.

(** Two processes have "Claude" in their names; the first one hangs. *)
Definition helper_behind_hung_claude : world :=
  World [Proc 10 (Named "launchd") None None;
         Proc 20 (Named "Claude") None (Some timeout);
         Proc 21 (Named "Claude Helper") None None]
    None clock plain_request.

(** Two processes have "Claude" in their names; the first one exits. *)
Definition helper_behind_claude : world :=
  World [Proc 10 (Named "launchd") None None;
         Proc 20 (Named "Claude") None None;
         Proc 21 (Named "Claude Helper") None None]
    None clock (Request (Some (Meta (Some (TokenInt 7))))).

(** Reading the name of the second process raises an error that the scan
    does not expect, before the one match is reached. *)
Definition broken_entry : world :=
  World [Proc 1 (Named "launchd") None None;
         Proc 7 (Raised (Py.Exn Py.RuntimeError "'name'")) None None;
         claude_desktop 1002]
    None clock (Request (Some (Meta (Some (TokenStr "t-1"))))).

(** Matches among other processes and a vanished one. *)
Definition busy_table : world :=
  World [Proc 1 (Named "launchd") None None;
         claude_desktop 1000;
         Proc 2 (Raised (Py.Exn Py.NoSuchProcess "process no longer exists (pid=2)"))
           None None;
         claude_desktop 1001;
         Proc 3 (Named "Claude Helper") None None]
    None clock plain_request.

(** The table of [helper_behind_claude], and a request without [_meta]. *)
Definition request_without_meta : world :=
  World [Proc 10 (Named "launchd") None None;
         Proc 20 (Named "Claude") None None;
         Proc 21 (Named "Claude Helper") None None]
    None clock (Request None).

End Scenario.

Unset Implicit Arguments.

(** ** Strings and traces *)

Lemma append_assoc (a b c : string) :
  ((a ++ b) ++ c = a ++ (b ++ c))%string.
Proof.
  induction a as [|ch a IH]; simpl; [reflexivity|].
  now rewrite IH.
Qed.

Lemma append_empty_r (a : string) : (a ++ EmptyString = a)%string.
Proof.
  induction a as [|ch a IH]; simpl; [reflexivity|].
  now rewrite IH.
Qed.

Lemma prefix_append (a b : string) : String.prefix a (a ++ b)%string = true.
Proof.
  induction a as [|ch a IH]; simpl.
  - now destruct b.
  - destruct (ascii_dec ch ch) as [_|ne]; [exact IH | now elim ne].
Qed.

Lemma contains_prefix (a b : string) : Py.contains a (a ++ b)%string = true.
Proof.
  destruct a as [|ch a].
  - destruct b; reflexivity.
  - change (Py.contains (String ch a) (String ch a ++ b))
      with (String.prefix (String ch a) (String ch a ++ b)
            || Py.contains (String ch a) (a ++ b)).
    now rewrite prefix_append.
Qed.

Lemma termination_log_cons (p : proc) (procs : list proc) :
  termination_log (p :: procs)
  = (("Terminated Claude process " ++ Py.str_of_int (pid p) ++ ". ")
       ++ termination_log procs)%string.
Proof.
  unfold termination_log. simpl map.
  destruct procs as [|q procs].
  - simpl String.concat. now rewrite append_empty_r.
  - reflexivity.
Qed.

Lemma popen_calls_app (t u : list event) :
  popen_calls (t ++ u) = popen_calls t + popen_calls u.
Proof. unfold popen_calls. now rewrite filter_app, length_app. Qed.

Lemma terminated_pids_app (t u : list event) :
  terminated_pids (t ++ u) = terminated_pids t ++ terminated_pids u.
Proof. unfold terminated_pids. now rewrite flat_map_app. Qed.

Lemma popen_calls_signals (procs : list proc) : popen_calls (signals procs) = 0.
Proof. induction procs as [|p procs IH]; [reflexivity | exact IH]. Qed.

Lemma terminated_pids_signals (procs : list proc) :
  terminated_pids (signals procs) = map pid procs.
Proof.
  induction procs as [|p procs IH]; [reflexivity|].
  simpl. now f_equal.
Qed.

(** ** Equations of the run monad *)

Lemma bind_returns {A B} (a : A) (t : list event) (k : A -> run B) :
  bind (Run (inr a) t) k = Run (ret (k a)) (t ++ trace (k a)).
Proof. reflexivity. Qed.

Lemma bind_raises {A B} (e : Py.exn) (t : list event) (k : A -> run B) :
  bind (Run (inl e) t) k = Run (inl e) t.
Proof. reflexivity. Qed.

Lemma try_returns {A} (a : A) (t : list event) (h : Py.exn -> run A) :
  try_except (Run (inr a) t) h = Run (inr a) t.
Proof. reflexivity. Qed.

Lemma try_raises {A} (e : Py.exn) (t : list event) (h : Py.exn -> run A) :
  try_except (Run (inl e) t) h = Run (ret (h e)) (t ++ trace (h e)).
Proof. reflexivity. Qed.

Create Rewrite HintDb run.
#[global] Hint Rewrite @bind_returns @bind_raises @try_returns @try_raises : run.

(** Push a known run through the binds and handlers around it. *)
Ltac run_step :=
  repeat (autorewrite with run; unfold pure, raise, tell; cbn [ret trace app]);
  rewrite ?app_nil_r.

(** ** A reply determines its outcome *)

Lemma unescape_escape_char (c : ascii) (rest : string) :
  Json.unescape_char (Json.escape_char c ++ rest) = Some (c, rest).
Proof.
  destruct c as [[] [] [] [] [] [] [] []]; reflexivity.
Qed.

Lemma escape_char_not_quote (c : ascii) (rest tail : string) :
  (Json.escape_char c ++ rest)%string <> String Json.quote tail.
Proof.
  destruct c as [[] [] [] [] [] [] [] []]; discriminate.
Qed.

Lemma escape_closed_inj (s1 s2 tail1 tail2 : string) :
  (Json.escape s1 ++ String Json.quote tail1)%string
  = (Json.escape s2 ++ String Json.quote tail2)%string ->
  s1 = s2 /\ tail1 = tail2.
Proof.
  revert s2. induction s1 as [|c1 s1 IH]; intros [|c2 s2] H.
  - injection H as ->. now split.
  - cbn [Json.escape String.append] in H. rewrite append_assoc in H.
    symmetry in H. now apply escape_char_not_quote in H.
  - cbn [Json.escape String.append] in H. rewrite append_assoc in H.
    now apply escape_char_not_quote in H.
  - cbn [Json.escape] in H. rewrite !append_assoc in H.
    apply (f_equal Json.unescape_char) in H.
    rewrite !unescape_escape_char in H. injection H as -> H.
    destruct (IH _ H) as [-> ->]. now split.
Qed.

Lemma reply_inj (r1 r2 : outcome) : reply r1 = reply r2 -> r1 = r2.
Proof.
  destruct r1 as [s1 m1], r2 as [s2 m2]. unfold reply. intros H.
  injection H as H. unfold Json.dumps, outcome_dict in H.
  cbn [map Json.item fst snd Json.encode Json.encode_string String.concat
         status message Json.spaces] in H.
  cbn [String.append Json.escape Json.escape_char] in H.
  unfold Json.char in H. rewrite !append_assoc in H.
  cbn [String.append] in H.
  apply escape_closed_inj in H as [-> H].
  injection H as H. unfold Json.item, Json.encode, Json.encode_string in H.
  simpl in H.
  unfold Json.char in H. rewrite !append_assoc in H. simpl in H.
  now apply escape_closed_inj in H as [-> _].
Qed.

Lemma returned_reply_inj (r1 r2 : outcome) :
  (inr (reply r1) : Py.exn + list TextContent) = inr (reply r2) -> r1 = r2.
Proof. intros H. apply reply_inj. congruence. Qed.

(** ** The scans *)

Lemma canonical_scan_matched (table acc : list proc) :
  scan_clean table = true ->
  Canonical.scan table acc = inr (acc ++ matched table).
Proof.
  revert acc. induction table as [|p table IH]; intros acc Hclean.
  - simpl. now rewrite app_nil_r.
  - simpl in Hclean. apply andb_true_iff in Hclean as [Hp Htable].
    unfold matched. simpl. unfold readable in Hp. unfold matches_target.
    destruct (info_name p) as [name|e].
    + destruct (String.eqb name "Claude Desktop").
      * rewrite (IH _ Htable). now rewrite <- app_assoc.
      * exact (IH _ Htable).
    + rewrite Hp. exact (IH _ Htable).
Qed.

Lemma canonical_find_matched (w : world) :
  scan_clean (process_iter w) = true ->
  Canonical.find_claude_processes w
  = Run (inr (matched (process_iter w))) [EvProcessIter].
Proof.
  intros Hclean. unfold Canonical.find_claude_processes.
  now rewrite (canonical_scan_matched _ [] Hclean).
Qed.

Lemma legacy_scan_first (table : list proc) :
  scan_clean table = true ->
  Legacy.scan table = inr (hd_error (matched_substring table)).
Proof.
  induction table as [|p table IH]; intros Hclean; [reflexivity|].
  simpl in Hclean. apply andb_true_iff in Hclean as [Hp Htable].
  unfold matched_substring. simpl. unfold readable in Hp.
  unfold matches_substring.
  destruct (info_name p) as [name|e].
  - destruct (Py.contains "Claude" name); [reflexivity | exact (IH Htable)].
  - rewrite Hp. exact (IH Htable).
Qed.

Lemma legacy_scan_stops (before after : list proc) (p : proc) :
  forallb skipped_by_legacy before = true ->
  matches_substring p = true ->
  Legacy.scan (before ++ p :: after) = inr (Some p).
Proof.
  intros Hbefore Hp.
  induction before as [|q before IH]; simpl.
  - unfold matches_substring in Hp.
    destruct (info_name p) as [name|e]; [now rewrite Hp | discriminate].
  - simpl in Hbefore. apply andb_true_iff in Hbefore as [Hq Hbefore].
    unfold skipped_by_legacy in Hq.
    destruct (info_name q) as [name|e].
    + apply negb_true_iff in Hq. rewrite Hq. exact (IH Hbefore).
    + rewrite Hq. exact (IH Hbefore).
Qed.

(** ** The termination loop of the canonical server *)

Lemma terminate_and_wait_exits (p : proc) :
  exits_in_time p = true ->
  terminate_and_wait p = Run (inr tt) [EvTerminate (pid p); EvWait (pid p) 5].
Proof.
  unfold exits_in_time, terminate_and_wait. intros H.
  destruct (terminate p); [discriminate|].
  destruct (wait p); [discriminate|]. reflexivity.
Qed.

Lemma terminate_and_wait_fails (p : proc) :
  exits_in_time p = false ->
  exists e t,
    terminate_and_wait p = Run (inl e) t /\ popen_calls t = 0
    /\ terminated_pids t = [pid p]
    /\ (terminate p = Some e \/ terminate p = None /\ wait p = Some e).
Proof.
  unfold exits_in_time, terminate_and_wait. intros H.
  destruct (terminate p) as [e|] eqn:Ht.
  - exists e, [EvTerminate (pid p)]. repeat split. now left.
  - destruct (wait p) as [e|] eqn:Hw; [|discriminate].
    exists e, [EvTerminate (pid p); EvWait (pid p) 5]. repeat split. now right.
Qed.

Lemma add_message_twice (r : outcome) (a b : string) :
  add_message (add_message r a) b = add_message r (a ++ b)%string.
Proof. unfold add_message. simpl. now rewrite append_assoc. Qed.

Lemma terminate_each_all_exit (procs : list proc) (result : outcome) :
  forallb exits_in_time procs = true ->
  Canonical.terminate_each procs result
  = Run (inr (Fallthrough (add_message result (termination_log procs))))
      (signals procs).
Proof.
  revert result. induction procs as [|p procs IH]; intros result Hall.
  - unfold add_message. simpl. rewrite append_empty_r. now destruct result.
  - simpl in Hall. apply andb_true_iff in Hall as [Hp Hall].
    rewrite termination_log_cons, <- add_message_twice.
    cbn [Canonical.terminate_each]. rewrite (terminate_and_wait_exits p Hp).
    run_step. rewrite (IH _ Hall). reflexivity.
Qed.

Lemma terminate_each_some_fails (procs : list proc) (result : outcome) :
  existsb fails_to_terminate procs = true ->
  exists msg t,
    Canonical.terminate_each procs result
    = Run (inr (Returned (Outcome "error" msg))) t
    /\ Py.startswith msg "Failed to terminate Claude: " = true
    /\ popen_calls t = 0.
Proof.
  revert result. induction procs as [|p procs IH]; intros result Hsome.
  - discriminate.
  - cbn [existsb] in Hsome. unfold fails_to_terminate at 1 in Hsome.
    cbn [Canonical.terminate_each].
    destruct (exits_in_time p) eqn:Hp.
    + cbn [negb orb] in Hsome.
      rewrite (terminate_and_wait_exits p Hp). run_step.
      destruct (IH (add_message result
                      ("Terminated Claude process "
                         ++ Py.str_of_int (pid p) ++ ". ")) Hsome)
        as (msg & t & Hrun & Hmsg & Ht).
      rewrite Hrun. cbn [ret trace].
      exists msg. eexists. split; [reflexivity|]. split; [exact Hmsg|].
      exact Ht.
    + destruct (terminate_and_wait_fails p Hp) as (e & t & Hrun & Ht & _ & _).
      rewrite Hrun. run_step.
      destruct (Py.exn_class_eqb (Py.exn_cls e) Py.TimeoutExpired);
        run_step; eexists; eexists;
        (split; [reflexivity|]); (split; [|exact Ht]).
      * reflexivity.
      * unfold Py.startswith. apply prefix_append.
Qed.

(** ** Claims about the restart tool of the canonical server *)

(** C1.  When some matched process fails to terminate (the signal or the
    wait raises a timeout or any other error), the launch primitive is
    invoked zero times and the returned outcome has status "error"; its
    message says that the termination failed. *)
Theorem failed_termination_never_launches :
  forall (A : Type) (w : world) (arguments : A),
    scan_clean (process_iter w) = true ->
    existsb fails_to_terminate (matched (process_iter w)) = true ->
    let r := Canonical.handle_call_tool w "restart_claude" arguments in
    popen_calls (trace r) = 0 /\
    exists msg,
      ret r = inr (reply (Outcome "error" msg)) /\
      Py.startswith msg "Failed to terminate Claude: " = true.
Proof.
  intros A w arguments Hclean Hsome r. subst r.
  unfold Canonical.handle_call_tool. cbn [String.eqb Ascii.eqb Bool.eqb negb].
  rewrite (canonical_find_matched w Hclean).
  unfold Canonical.terminate_existing.
  destruct (matched (process_iter w)) as [|p procs] eqn:Hm; [discriminate|].
  destruct (terminate_each_some_fails (p :: procs)
              {| status := "success"; message := EmptyString |} Hsome)
    as (msg & t & Hrun & Hmsg & Ht).
  run_step. rewrite Hrun. run_step.
  split.
  - exact Ht.
  - exists msg. split; [reflexivity | exact Hmsg].
Qed.

(** C2.  Exactly one match, and waiting for it raises a timeout: the
    outcome is exactly status "error" with message
    "Failed to terminate Claude: timeout", and nothing is launched. *)
Theorem single_match_wait_timeout :
  forall (A : Type) (w : world) (arguments : A) (p : proc) (e : Py.exn),
    scan_clean (process_iter w) = true ->
    matched (process_iter w) = [p] ->
    terminate p = None ->
    wait p = Some e ->
    Py.exn_cls e = Py.TimeoutExpired ->
    let r := Canonical.handle_call_tool w "restart_claude" arguments in
    ret r = inr (reply (Outcome "error" "Failed to terminate Claude: timeout"))
    /\ popen_calls (trace r) = 0.
Proof.
  intros A w arguments p e Hclean Hone Hterminate Hwait Hclass r. subst r.
  unfold Canonical.handle_call_tool. cbn [String.eqb Ascii.eqb Bool.eqb negb].
  rewrite (canonical_find_matched w Hclean), Hone. run_step.
  cbn [Canonical.terminate_existing Canonical.terminate_each].
  unfold terminate_and_wait. rewrite Hterminate, Hwait.
  unfold may_raise. run_step. rewrite Hclass. cbn [Py.exn_class_eqb].
  run_step. split; reflexivity.
Qed.

(** C3, as the code has it.  When every match exits in time and the launch
    fails, the outcome is status "error" with the message
    "Failed to start Claude": the assignment replaces the message, so the
    "Terminated" entries written before it are gone.  Every match was
    signalled and the launch was tried once. *)
Theorem launch_failure_replaces_message :
  forall (A : Type) (w : world) (arguments : A) (e : Py.exn),
    scan_clean (process_iter w) = true ->
    forallb exits_in_time (matched (process_iter w)) = true ->
    popen w = Some e ->
    let r := Canonical.handle_call_tool w "restart_claude" arguments in
    ret r = inr (reply (Outcome "error" "Failed to start Claude"))
    /\ Py.contains "Terminated" "Failed to start Claude" = false
    /\ terminated_pids (trace r) = map pid (matched (process_iter w))
    /\ popen_calls (trace r) = 1.
Proof.
  intros A w arguments e Hclean Hall Hpopen r. subst r.
  unfold Canonical.handle_call_tool. cbn [String.eqb Ascii.eqb Bool.eqb negb].
  rewrite (canonical_find_matched w Hclean). run_step.
  unfold Canonical.start_new, launch. rewrite Hpopen. unfold may_raise.
  destruct (matched (process_iter w)) as [|p procs] eqn:Hm.
  - cbn [Canonical.terminate_existing]. run_step. repeat split; reflexivity.
  - cbn [Canonical.terminate_existing].
    rewrite (terminate_each_all_exit (p :: procs) _ Hall). run_step.
    repeat split; try reflexivity.
    + cbn [terminated_pids flat_map app].
      fold (terminated_pids (signals (p :: procs) ++ [EvPopen launch_argv])).
      rewrite terminated_pids_app, terminated_pids_signals.
      cbn [terminated_pids flat_map]. now rewrite app_nil_r.
    + change (popen_calls (signals (p :: procs) ++ [EvPopen launch_argv]) = 1).
      rewrite popen_calls_app, popen_calls_signals. reflexivity.
Qed.

(** C4, as the code has it.  With N >= 1 matches that all exit in time,
    every match is signalled and waited for in enumeration order and then
    the launch primitive is invoked once.  When the launch succeeds the
    outcome is status "success" and the message is one entry
    "Terminated Claude process <pid>. " per match, then
    "Terminated N existing Claude process(es). ", then
    "Started new Claude process."; when it fails the message is replaced
    by "Failed to start Claude". *)
Theorem all_terminated_then_launch :
  forall (A : Type) (w : world) (arguments : A),
    scan_clean (process_iter w) = true ->
    matched (process_iter w) <> [] ->
    forallb exits_in_time (matched (process_iter w)) = true ->
    let procs := matched (process_iter w) in
    let r := Canonical.handle_call_tool w "restart_claude" arguments in
    trace r = EvProcessIter :: signals procs ++ [EvPopen launch_argv]
    /\ ret r
       = inr (reply
                match popen w with
                | None =>
                    Outcome "success"
                      (termination_log procs
                         ++ ("Terminated " ++ Py.str_of_len procs
                               ++ " existing Claude process(es). ")
                         ++ "Started new Claude process.")
                | Some _ => Outcome "error" "Failed to start Claude"
                end).
Proof.
  intros A w arguments Hclean Hsome Hall procs r. subst procs r.
  unfold Canonical.handle_call_tool. cbn [String.eqb Ascii.eqb Bool.eqb negb].
  rewrite (canonical_find_matched w Hclean). run_step.
  destruct (matched (process_iter w)) as [|p procs] eqn:Hm; [now elim Hsome|].
  cbn [Canonical.terminate_existing].
  rewrite (terminate_each_all_exit (p :: procs) _ Hall). run_step.
  unfold Canonical.start_new, launch, may_raise.
  destruct (popen w) as [e|]; run_step.
  - split; reflexivity.
  - split; [reflexivity|].
    unfold add_message. cbn [status message String.append].
    now rewrite append_assoc.
Qed.

(** C6, as the code has it.  With no match, no terminate signal is sent:
    the scan is followed at once by the launch.  The message has no
    "Terminated" in it, and when the launch succeeds the outcome is exactly
    status "success" with message "Started new Claude process.". *)
Theorem no_match_goes_straight_to_launch :
  forall (A : Type) (w : world) (arguments : A),
    scan_clean (process_iter w) = true ->
    matched (process_iter w) = [] ->
    let r := Canonical.handle_call_tool w "restart_claude" arguments in
    trace r = [EvProcessIter; EvPopen launch_argv]
    /\ exists out,
         ret r = inr (reply out)
         /\ Py.contains "Terminated" (message out) = false
         /\ (popen w = None ->
             out = Outcome "success" "Started new Claude process.").
Proof.
  intros A w arguments Hclean Hnone r. subst r.
  unfold Canonical.handle_call_tool. cbn [String.eqb Ascii.eqb Bool.eqb negb].
  rewrite (canonical_find_matched w Hclean), Hnone. run_step.
  cbn [Canonical.terminate_existing]. run_step.
  unfold Canonical.start_new, launch, may_raise.
  destruct (popen w) as [e|]; run_step.
  - split; [reflexivity|]. eexists. split; [reflexivity|].
    split; [reflexivity | discriminate].
  - split; [reflexivity|]. eexists. split; [reflexivity|].
    split; reflexivity.
Qed.

(** ** Claims about the status resource *)

Lemma canonical_read_status_fixed (w : world) :
  Canonical.read_status w (Py.Str "claude://status")
  = (claude_processes <- Canonical.find_claude_processes w ;;
     pure (Json.dumps None
             (status_dict
                {| running := Nat.ltb 0 (List.length claude_processes);
                   status_pid := match claude_processes with
                                 | first :: _ => Some (pid first)
                                 | [] => None
                                 end;
                   timestamp := now_isoformat w |}))).
Proof. reflexivity. Qed.

(** C5.  The status that either server reports for "claude://status" has
    [running] true exactly when [pid] is not null: [pid] is the pid of the
    first match when there is a match, and null when there is none. *)
Theorem status_running_iff_pid :
  forall w : world,
    scan_clean (process_iter w) = true ->
    (exists st,
        ret (Canonical.handle_read_resource w (Py.Str "claude://status"))
        = inr (Json.dumps None (status_dict st))
        /\ running st = Py.is_not_none (status_pid st)
        /\ status_pid st = option_map pid (hd_error (matched (process_iter w))))
    /\
    (exists st,
        ret (Legacy.handle_read_resource w (Py.Str "claude://status"))
        = inr (Json.dumps (Some 2) (status_dict st))
        /\ running st = Py.is_not_none (status_pid st)
        /\ status_pid st
           = option_map pid (hd_error (matched_substring (process_iter w)))).
Proof.
  intros w Hclean. split.
  - unfold Canonical.handle_read_resource.
    rewrite canonical_read_status_fixed, (canonical_find_matched w Hclean).
    run_step. eexists. split; [reflexivity|].
    destruct (matched (process_iter w)); split; reflexivity.
  - unfold Legacy.handle_read_resource, Legacy.find_claude_process.
    cbn [String.eqb Ascii.eqb Bool.eqb negb].
    rewrite (legacy_scan_first _ Hclean). run_step.
    eexists. split; [reflexivity|].
    destruct (hd_error (matched_substring (process_iter w))); split; reflexivity.
Qed.

(** C7.  A tool name other than "restart_claude" makes either server raise
    the unknown-tool error before anything else happens: the trace is
    empty, so no scan, no terminate signal and no launch. *)
Theorem unknown_tool_rejected :
  forall (A : Type) (w : world) (name : string) (arguments : A),
    name <> "restart_claude" ->
    Canonical.handle_call_tool w name arguments
    = Run (inl (Py.Exn Py.ValueError ("Unknown tool: " ++ name))) []
    /\ Legacy.handle_call_tool w name arguments
       = Run (inl (Py.Exn Py.ValueError ("Unknown tool: " ++ name))) [].
Proof.
  intros A w name arguments Hname.
  apply String.eqb_neq in Hname.
  unfold Canonical.handle_call_tool, Legacy.handle_call_tool.
  rewrite Hname. split; reflexivity.
Qed.

(** C8, at the failing input.  The canonical server strips the scheme with
    [str.replace], which removes every occurrence: an identifier that
    repeats the scheme is served as if it were "claude://status", where
    the legacy server, which compares the whole identifier, raises the
    unknown-resource error. *)
Theorem doubled_scheme_is_served :
  forall w : world,
    Canonical.handle_read_resource w (Py.Str "claude://claude://status")
    = Canonical.handle_read_resource w (Py.Str "claude://status")
    /\ Canonical.handle_read_resource
         (World [] (popen w) (now_isoformat w) (request_context w))
         (Py.Str "claude://claude://status")
       = Run (inr (Json.dumps None
                     (status_dict (Status false None (now_isoformat w)))))
           [EvProcessIter]
    /\ Legacy.handle_read_resource w (Py.Str "claude://claude://status")
       = Run (inl (Py.Exn Py.ValueError
                     "Unknown resource: claude://claude://status")) [].
Proof. intros w. repeat split. Qed.

(** X12.  The legacy server refuses every identifier but the string
    "claude://status", an object that is not a [str] included, with
    [ValueError("Unknown resource: <identifier>")], before the process
    table is scanned. *)
Lemma legacy_unknown_resource_rejected (w : world) (uri : Py.arg) :
  uri <> Py.Str "claude://status" ->
  Legacy.handle_read_resource w uri
  = Run (inl (Py.Exn Py.ValueError ("Unknown resource: " ++ Py.str uri))) [].
Proof.
  intros Huri. unfold Legacy.handle_read_resource.
  destruct uri as [s|repr]; [|reflexivity].
  destruct (String.eqb_spec s "claude://status") as [->|_];
    [now elim Huri | reflexivity].
Qed.

(** C9, as the code has it.  Whatever is raised inside the [try] of the
    canonical [handle_read_resource] reaches the caller as an exception
    whose text has "Unknown resource" in it.  It is a new [ValueError]
    when the text of the original did not have it; otherwise the original
    is raised again as it is, whatever its class. *)
Theorem read_failures_mention_unknown_resource :
  forall (w : world) (uri : Py.arg) (e : Py.exn),
    ret (Canonical.read_status w uri) = inl e ->
    exists e',
      ret (Canonical.handle_read_resource w uri) = inl e'
      /\ Py.contains "Unknown resource" (Py.exn_str e') = true
      /\ e' = (if Py.contains "Unknown resource" (Py.exn_str e)
               then e
               else Py.Exn Py.ValueError ("Unknown resource: " ++ Py.exn_str e)).
Proof.
  intros w uri e Hbody. unfold Canonical.handle_read_resource, try_except.
  rewrite Hbody.
  destruct (Py.contains "Unknown resource" (Py.exn_str e)) eqn:Hmark;
    cbn [negb raise ret]; eexists; (split; [reflexivity|]);
    (split; [|reflexivity]).
  - exact Hmark.
  - apply (contains_prefix "Unknown resource" (": " ++ Py.exn_str e)).
Qed.

(** Nothing is raised by the handler that was not raised inside it. *)
Lemma read_failure_comes_from_body (w : world) (uri : Py.arg) (e' : Py.exn) :
  ret (Canonical.handle_read_resource w uri) = inl e' ->
  exists e, ret (Canonical.read_status w uri) = inl e.
Proof.
  unfold Canonical.handle_read_resource, try_except.
  destruct (ret (Canonical.read_status w uri)) as [e|s] eqn:Hbody.
  - intros _. now exists e.
  - rewrite Hbody. discriminate.
Qed.

(** ** The legacy restart tool *)

(** Unfold the legacy tool on a request that has a meta object, once the
    result of its scan is known. *)
Ltac legacy_run Hreq Hscan :=
  unfold Legacy.handle_call_tool, Legacy.find_claude_process,
    Legacy.terminate_existing, Legacy.start_new, Legacy.send_progress,
    Legacy.read_progress_token, terminate_and_wait, launch, may_raise,
    raised_by, exits_in_time;
  cbn [String.eqb Ascii.eqb Bool.eqb negb]; rewrite Hreq, Hscan;
  cbv beta iota zeta delta [bind pure tell raise try_except ret trace].


Lemma legacy_call_without_meta {A} (w : world) (arguments : A) :
  request_context w = Request None ->
  Legacy.handle_call_tool w "restart_claude" arguments
  = Run (inl (Py.Exn Py.AttributeError
                "'NoneType' object has no attribute 'progressToken'")) [].
Proof.
  intros Hreq.
  unfold Legacy.handle_call_tool, Legacy.send_progress,
    Legacy.read_progress_token.
  cbn [String.eqb Ascii.eqb Bool.eqb negb]. rewrite Hreq. reflexivity.
Qed.

Lemma legacy_call_with_match {A} (w : world) (arguments : A)
  (m : request_meta) (p : proc) :
  request_context w = Request (Some m) ->
  Legacy.scan (process_iter w) = inr (Some p) ->
  let r := Legacy.handle_call_tool w "restart_claude" arguments in
  terminated_pids (trace r) = [pid p]
  /\ popen_calls (trace r) = (if exits_in_time p then 1 else 0)
  /\ ret r
     = inr (reply
              match raised_by p with
              | Some e =>
                  Outcome "error" ("Failed to terminate Claude: " ++ Py.exn_str e)
              | None =>
                  match popen w with
                  | None =>
                      Outcome "success"
                        "Terminated existing Claude process. Started new Claude process."
                  | Some e =>
                      Outcome "error" ("Failed to start Claude: " ++ Py.exn_str e)
                  end
              end).
Proof.
  intros Hreq Hscan r. subst r. legacy_run Hreq Hscan.
  destruct (terminate p) as [e1|]; [|destruct (wait p) as [e2|]];
    try destruct (popen w) as [e3|];
    destruct (Legacy.truthy (progressToken m)); repeat split.
Qed.

Lemma legacy_call_without_match {A} (w : world) (arguments : A)
  (m : request_meta) :
  request_context w = Request (Some m) ->
  Legacy.scan (process_iter w) = inr None ->
  let r := Legacy.handle_call_tool w "restart_claude" arguments in
  terminated_pids (trace r) = []
  /\ popen_calls (trace r) = 1
  /\ ret r
     = inr (reply
              match popen w with
              | None => Outcome "success" "Started new Claude process."
              | Some e =>
                  Outcome "error" ("Failed to start Claude: " ++ Py.exn_str e)
              end).
Proof.
  intros Hreq Hscan r. subst r. legacy_run Hreq Hscan.
  destruct (popen w) as [e|];
    destruct (Legacy.truthy (progressToken m)); repeat split.
Qed.

Lemma legacy_call_scan_raises {A} (w : world) (arguments : A)
  (m : request_meta) (e : Py.exn) :
  request_context w = Request (Some m) ->
  Legacy.scan (process_iter w) = inl e ->
  let r := Legacy.handle_call_tool w "restart_claude" arguments in
  ret r = inl e /\ terminated_pids (trace r) = [] /\ popen_calls (trace r) = 0.
Proof.
  intros Hreq Hscan r. subst r. legacy_run Hreq Hscan.
  destruct (Legacy.truthy (progressToken m)); repeat split.
Qed.


(** ** The theorems at the scenarios *)

Lemma failed_termination_never_launches_witness :
  let w := Scenario.second_refuses in
  let r := Canonical.handle_call_tool w "restart_claude" tt in
  scan_clean (process_iter w) = true
  /\ existsb fails_to_terminate (matched (process_iter w)) = true
  /\ popen_calls (trace r) = 0
  /\ exists msg,
       ret r = inr (reply (Outcome "error" msg))
       /\ Py.startswith msg "Failed to terminate Claude: " = true.
Proof.
  split; [reflexivity|]. split; [reflexivity|].
  apply (@failed_termination_never_launches unit Scenario.second_refuses tt);
    reflexivity.
Defined.

Lemma single_match_wait_timeout_witness :
  let w := Scenario.wait_times_out in
  let r := Canonical.handle_call_tool w "restart_claude" tt in
  matched (process_iter w)
  = [Proc 12345 (Named "Claude Desktop") None (Some Scenario.timeout)]
  /\ ret r = inr (reply (Outcome "error" "Failed to terminate Claude: timeout"))
  /\ popen_calls (trace r) = 0.
Proof.
  split; [reflexivity|].
  apply (@single_match_wait_timeout unit Scenario.wait_times_out tt
           (Proc 12345 (Named "Claude Desktop") None (Some Scenario.timeout))
           Scenario.timeout); reflexivity.
Defined.

(** C3 fails on the code: after the one match was terminated and the
    launch failed, no outcome that still had "Terminated" in its message
    is returned. *)
Lemma launch_failure_drops_terminated_text :
  let w := Scenario.launch_fails in
  let r := Canonical.handle_call_tool w "restart_claude" tt in
  forallb exits_in_time (matched (process_iter w)) = true
  /\ popen w <> None
  /\ ret r = inr (reply (Outcome "error" "Failed to start Claude"))
  /\ ~ (exists st msg,
          ret r = inr (reply (Outcome st msg))
          /\ Py.contains "Terminated" msg = true).
Proof.
  split; [reflexivity|]. split; [discriminate|]. split; [reflexivity|].
  intros (st & msg & Hret & Hkept).
  change (inr (reply (Outcome "error" "Failed to start Claude"))
          = (inr (reply (Outcome st msg)) : Py.exn + list TextContent)) in Hret.
  apply returned_reply_inj in Hret.
  injection Hret as _ <-. discriminate Hkept.
Qed.

Lemma launch_failure_replaces_message_witness :
  let w := Scenario.launch_fails in
  let r := Canonical.handle_call_tool w "restart_claude" tt in
  ret r = inr (reply (Outcome "error" "Failed to start Claude"))
  /\ Py.contains "Terminated" "Failed to start Claude" = false
  /\ terminated_pids (trace r) = [12345%Z]
  /\ popen_calls (trace r) = 1.
Proof.
  apply (@launch_failure_replaces_message unit Scenario.launch_fails tt
           (Py.Exn Py.RuntimeError "[Errno 2] No such file or directory: 'open'"));
    reflexivity.
Defined.

(** C4 fails on the code: with the one match of pid 12345 terminated and
    the launch done, the outcome is not the one of the claim, and its
    message does not have "Terminated 1 existing process(es)" in it; and
    when the launch fails nothing about the terminated processes is left. *)
Lemma one_process_message_differs :
  let w := Scenario.one_process in
  let r := Canonical.handle_call_tool w "restart_claude" tt in
  let msg := "Terminated Claude process 12345. Terminated 1 existing Claude process(es). Started new Claude process." in
  matched (process_iter w) = [Scenario.claude_desktop 12345]
  /\ ret r = inr (reply (Outcome "success" msg))
  /\ ret r <> inr (reply (Outcome "success"
                            "Terminated 1 existing process(es). Started new process."))
  /\ Py.contains "Terminated 1 existing process(es)" msg = false
  /\ ret (Canonical.handle_call_tool Scenario.launch_fails "restart_claude" tt)
     = inr (reply (Outcome "error" "Failed to start Claude")).
Proof.
  split; [reflexivity|]. split; [reflexivity|]. split; [|split; reflexivity].
  intros H.
  change (inr (reply (Outcome "success" "Terminated Claude process 12345. Terminated 1 existing Claude process(es). Started new Claude process."))
          = (inr (reply (Outcome "success"
                           "Terminated 1 existing process(es). Started new process."))
             : Py.exn + list TextContent)) in H.
  apply returned_reply_inj in H. discriminate H.
Qed.

Lemma all_terminated_then_launch_witness :
  let w := Scenario.one_process in
  let r := Canonical.handle_call_tool w "restart_claude" tt in
  trace r = [EvProcessIter; EvTerminate 12345; EvWait 12345 5; EvPopen launch_argv]
  /\ ret r
     = inr (reply (Outcome "success"
                     "Terminated Claude process 12345. Terminated 1 existing Claude process(es). Started new Claude process.")).
Proof.
  apply (@all_terminated_then_launch unit Scenario.one_process tt);
    [reflexivity | discriminate | reflexivity].
Defined.

(** The third scenario of the specification, by evaluation. *)
Example three_processes_terminated :
  ret (Canonical.handle_call_tool Scenario.three_processes "restart_claude" tt)
  = inr (reply (Outcome "success"
                  "Terminated Claude process 1000. Terminated Claude process 1001. Terminated Claude process 1002. Terminated 3 existing Claude process(es). Started new Claude process.")).
Proof. reflexivity. Qed.

Lemma status_running_iff_pid_witness :
  let w := Scenario.helper_behind_claude in
  scan_clean (process_iter w) = true
  /\ (exists st,
         ret (Canonical.handle_read_resource w (Py.Str "claude://status"))
         = inr (Json.dumps None (status_dict st))
         /\ running st = Py.is_not_none (status_pid st)
         /\ status_pid st = None)
  /\ (exists st,
         ret (Legacy.handle_read_resource w (Py.Str "claude://status"))
         = inr (Json.dumps (Some 2) (status_dict st))
         /\ running st = Py.is_not_none (status_pid st)
         /\ status_pid st = Some 20%Z).
Proof.
  split; [reflexivity|].
  apply (status_running_iff_pid Scenario.helper_behind_claude). reflexivity.
Defined.

(** C6 fails on the code: with no process and a launch that succeeds the
    outcome is not the one of the claim. *)
Lemma no_process_message_differs :
  let w := Scenario.no_process in
  let r := Canonical.handle_call_tool w "restart_claude" tt in
  matched (process_iter w) = [] /\ popen w = None
  /\ ret r = inr (reply (Outcome "success" "Started new Claude process."))
  /\ ret r <> inr (reply (Outcome "success" "Started new process.")).
Proof.
  split; [reflexivity|]. split; [reflexivity|]. split; [reflexivity|].
  intros H.
  change (inr (reply (Outcome "success" "Started new Claude process."))
          = (inr (reply (Outcome "success" "Started new process."))
             : Py.exn + list TextContent)) in H.
  apply returned_reply_inj in H. discriminate H.
Qed.

Lemma no_match_goes_straight_to_launch_witness :
  let w := Scenario.no_process in
  let r := Canonical.handle_call_tool w "restart_claude" tt in
  trace r = [EvProcessIter; EvPopen launch_argv]
  /\ exists out,
       ret r = inr (reply out)
       /\ Py.contains "Terminated" (message out) = false
       /\ (popen w = None -> out = Outcome "success" "Started new Claude process.").
Proof.
  apply (@no_match_goes_straight_to_launch unit Scenario.no_process tt);
    reflexivity.
Defined.

Lemma unknown_tool_rejected_witness :
  let w := Scenario.one_process in
  "restart" <> "restart_claude"
  /\ Canonical.handle_call_tool w "restart" tt
     = Run (inl (Py.Exn Py.ValueError "Unknown tool: restart")) []
  /\ Legacy.handle_call_tool w "restart" tt
     = Run (inl (Py.Exn Py.ValueError "Unknown tool: restart")) [].
Proof.
  split; [discriminate|].
  apply (@unknown_tool_rejected unit Scenario.one_process "restart" tt).
  discriminate.
Defined.

(** C9 fails on the code: an error of the scan whose text already has
    "Unknown resource" in it leaves the handler as it is, and it is no
    [ValueError]. *)
Lemma marked_error_keeps_its_class :
  let w := Scenario.scan_fault in
  ret (Canonical.handle_read_resource w (Py.Str "claude://status"))
  = inl (Py.Exn Py.RuntimeError "Unknown resource limit")
  /\ ~ (exists e,
          ret (Canonical.handle_read_resource w (Py.Str "claude://status")) = inl e
          /\ Py.exn_cls e = Py.ValueError).
Proof.
  split; [reflexivity|].
  intros (e & Hret & Hclass).
  change (inl (Py.Exn Py.RuntimeError "Unknown resource limit")
          = (inl e : Py.exn + string)) in Hret.
  injection Hret as <-. discriminate Hclass.
Qed.

Lemma read_failures_mention_unknown_resource_witness :
  let w := Scenario.scan_fault in
  ret (Canonical.read_status w (Py.Str "claude://status"))
  = inl (Py.Exn Py.RuntimeError "Unknown resource limit")
  /\ exists e',
       ret (Canonical.handle_read_resource w (Py.Str "claude://status")) = inl e'
       /\ Py.contains "Unknown resource" (Py.exn_str e') = true
       /\ e' = Py.Exn Py.RuntimeError "Unknown resource limit".
Proof.
  split; [reflexivity|].
  apply (read_failures_mention_unknown_resource Scenario.scan_fault
           (Py.Str "claude://status")
           (Py.Exn Py.RuntimeError "Unknown resource limit")).
  reflexivity.
Defined.



(** ** The restart tool of the canonical server, case by case *)

Lemma split_first_failure (procs : list proc) :
  forallb exits_in_time procs = true
  \/ exists before p after,
       procs = before ++ p :: after
       /\ forallb exits_in_time before = true
       /\ exits_in_time p = false.
Proof.
  induction procs as [|q procs IH]; [now left|].
  destruct (exits_in_time q) eqn:Hq.
  - destruct IH as [Hall | (before & p & after & -> & Hbefore & Hp)].
    + left. simpl. now rewrite Hq.
    + right. exists (q :: before), p, after. simpl. rewrite Hq. now repeat split.
  - right. exists [], q, procs. now repeat split.
Qed.

Lemma split_first_fault (table : list proc) :
  scan_clean table = true
  \/ exists before p after e,
       table = before ++ p :: after
       /\ forallb readable before = true
       /\ info_name p = Raised e
       /\ scan_skips e = false.
Proof.
  induction table as [|q table IH]; [now left|].
  destruct (readable q) eqn:Hq.
  - destruct IH as [Hall | (before & p & after & e & -> & Hbefore & Hp & He)].
    + left. unfold scan_clean. simpl. now rewrite Hq.
    + right. exists (q :: before), p, after, e. simpl. rewrite Hq.
      now repeat split.
  - right. unfold readable in Hq.
    destruct (info_name q) as [name|e] eqn:Hname; [discriminate|].
    exists [], q, table, e. now repeat split.
Qed.

Lemma canonical_scan_fault (before after acc : list proc) (p : proc) (e : Py.exn) :
  forallb readable before = true ->
  info_name p = Raised e ->
  scan_skips e = false ->
  Canonical.scan (before ++ p :: after) acc = inl e.
Proof.
  intros Hbefore Hp He. revert acc.
  induction before as [|q before IH]; intros acc; simpl.
  - now rewrite Hp, He.
  - simpl in Hbefore. apply andb_true_iff in Hbefore as [Hq Hbefore].
    unfold readable in Hq.
    destruct (info_name q) as [name|e'].
    + destruct (String.eqb name "Claude Desktop"); now apply IH.
    + rewrite Hq. now apply IH.
Qed.

Lemma terminate_and_wait_raises (p : proc) (e : Py.exn) :
  raised_by p = Some e ->
  terminate_and_wait p = Run (inl e) (failed_attempt p).
Proof.
  unfold raised_by, terminate_and_wait, failed_attempt. intros H.
  destruct (terminate p) as [e'|].
  - injection H as ->. reflexivity.
  - rewrite H. reflexivity.
Qed.

Lemma raised_by_exits (p : proc) :
  exits_in_time p = false <-> exists e, raised_by p = Some e.
Proof.
  unfold exits_in_time, raised_by.
  destruct (terminate p) as [e|]; [|destruct (wait p) as [e|]]; split;
    try discriminate; try reflexivity; intros H;
    try (now exists e); now destruct H.
Qed.


Lemma terminate_each_first_failure
  (before after : list proc) (p : proc) (e : Py.exn) (result : outcome) :
  forallb exits_in_time before = true ->
  raised_by p = Some e ->
  Canonical.terminate_each (before ++ p :: after) result
  = Run (inr (Returned (Outcome "error" (termination_error e))))
      (signals before ++ failed_attempt p).
Proof.
  revert result. induction before as [|q before IH]; intros result Hbefore Hp.
  - cbn [app Canonical.terminate_each signals flat_map].
    rewrite (terminate_and_wait_raises p e Hp). run_step.
    unfold termination_error.
    destruct (Py.exn_class_eqb (Py.exn_cls e) Py.TimeoutExpired);
      run_step; reflexivity.
  - simpl in Hbefore. apply andb_true_iff in Hbefore as [Hq Hbefore].
    cbn [app Canonical.terminate_each].
    rewrite (terminate_and_wait_exits q Hq). run_step.
    rewrite (IH _ Hbefore Hp). reflexivity.
Qed.

Lemma canonical_call_all_exit {A} (w : world) (arguments : A) :
  scan_clean (process_iter w) = true ->
  forallb exits_in_time (matched (process_iter w)) = true ->
  Canonical.handle_call_tool w "restart_claude" arguments
  = Run (inr (reply
                match popen w with
                | None =>
                    Outcome "success"
                      (restart_log (matched (process_iter w))
                         ++ "Started new Claude process.")
                | Some _ => Outcome "error" "Failed to start Claude"
                end))
      (EvProcessIter :: signals (matched (process_iter w))
         ++ [EvPopen launch_argv]).
Proof.
  intros Hclean Hall.
  unfold Canonical.handle_call_tool. cbn [String.eqb Ascii.eqb Bool.eqb negb].
  rewrite (canonical_find_matched w Hclean). run_step.
  unfold Canonical.start_new, launch, may_raise.
  destruct (matched (process_iter w)) as [|p procs] eqn:Hm;
    cbn [Canonical.terminate_existing].
  - destruct (popen w) as [e|]; run_step; reflexivity.
  - rewrite (terminate_each_all_exit (p :: procs) _ Hall). run_step.
    destruct (popen w) as [e|]; run_step; [reflexivity|].
    unfold add_message, restart_log. cbn [status message String.append].
    now rewrite !append_assoc.
Qed.

Lemma canonical_call_first_failure {A} (w : world) (arguments : A)
  (before after : list proc) (p : proc) (e : Py.exn) :
  scan_clean (process_iter w) = true ->
  matched (process_iter w) = before ++ p :: after ->
  forallb exits_in_time before = true ->
  raised_by p = Some e ->
  Canonical.handle_call_tool w "restart_claude" arguments
  = Run (inr (reply (Outcome "error" (termination_error e))))
      (EvProcessIter :: signals before ++ failed_attempt p).
Proof.
  intros Hclean Hm Hbefore Hp.
  unfold Canonical.handle_call_tool. cbn [String.eqb Ascii.eqb Bool.eqb negb].
  rewrite (canonical_find_matched w Hclean), Hm. run_step.
  unfold Canonical.terminate_existing.
  destruct (before ++ p :: after) as [|q procs] eqn:Hprocs;
    [now destruct before|].
  rewrite <- Hprocs.
  rewrite (terminate_each_first_failure before after p e _ Hbefore Hp).
  run_step. reflexivity.
Qed.

Lemma canonical_call_scan_fault {A} (w : world) (arguments : A)
  (before after : list proc) (p : proc) (e : Py.exn) :
  process_iter w = before ++ p :: after ->
  forallb readable before = true ->
  info_name p = Raised e ->
  scan_skips e = false ->
  Canonical.handle_call_tool w "restart_claude" arguments
  = Run (inl e) [EvProcessIter].
Proof.
  intros Htable Hbefore Hp He.
  unfold Canonical.handle_call_tool, Canonical.find_claude_processes.
  cbn [String.eqb Ascii.eqb Bool.eqb negb].
  rewrite Htable, (canonical_scan_fault before after [] p e Hbefore Hp He).
  run_step. reflexivity.
Qed.

Lemma terminated_pids_failed_attempt (p : proc) :
  terminated_pids (failed_attempt p) = [pid p].
Proof. unfold failed_attempt. now destruct (terminate p). Qed.

Lemma popen_calls_failed_attempt (p : proc) : popen_calls (failed_attempt p) = 0.
Proof. unfold failed_attempt. now destruct (terminate p). Qed.

Lemma forallb_exits_split (before after : list proc) (p : proc) :
  exits_in_time p = false ->
  forallb exits_in_time (before ++ p :: after) = false.
Proof.
  intros Hp. rewrite forallb_app. simpl. rewrite Hp.
  now rewrite andb_false_r.
Qed.

(** The four ways a call of the canonical tool can go. *)
Lemma canonical_call_cases {A} (w : world) (name : string) (arguments : A) :
  let r := Canonical.handle_call_tool w name arguments in
  (name <> "restart_claude"
   /\ r = Run (inl (Py.Exn Py.ValueError ("Unknown tool: " ++ name))) [])
  \/ (name = "restart_claude"
      /\ exists before p after e,
           process_iter w = before ++ p :: after
           /\ forallb readable before = true
           /\ info_name p = Raised e
           /\ scan_skips e = false
           /\ r = Run (inl e) [EvProcessIter])
  \/ (name = "restart_claude"
      /\ scan_clean (process_iter w) = true
      /\ forallb exits_in_time (matched (process_iter w)) = true
      /\ r = Run (inr (reply
                         match popen w with
                         | None =>
                             Outcome "success"
                               (restart_log (matched (process_iter w))
                                  ++ "Started new Claude process.")
                         | Some _ => Outcome "error" "Failed to start Claude"
                         end))
               (EvProcessIter :: signals (matched (process_iter w))
                  ++ [EvPopen launch_argv]))
  \/ (name = "restart_claude"
      /\ scan_clean (process_iter w) = true
      /\ exists before p after e,
           matched (process_iter w) = before ++ p :: after
           /\ forallb exits_in_time before = true
           /\ raised_by p = Some e
           /\ r = Run (inr (reply (Outcome "error" (termination_error e))))
                    (EvProcessIter :: signals before ++ failed_attempt p)).
Proof.
  intros r. subst r.
  destruct (String.eqb_spec name "restart_claude") as [->|Hname].
  - right.
    destruct (split_first_fault (process_iter w))
      as [Hclean | (before & p & after & e & Htable & Hbefore & Hp & He)].
    + right.
      destruct (split_first_failure (matched (process_iter w)))
        as [Hall | (before & p & after & Hm & Hbefore & Hp)].
      * left. repeat split; try assumption.
        now apply canonical_call_all_exit.
      * right. apply raised_by_exits in Hp as [e He].
        repeat split; try assumption.
        exists before, p, after, e. repeat split; try assumption.
        now apply canonical_call_first_failure with (after := after).
    + left. split; [reflexivity|].
      exists before, p, after, e. repeat split; try assumption.
      now apply canonical_call_scan_fault with (before := before) (after := after) (p := p).
  - left. split; [assumption|].
    unfold Canonical.handle_call_tool.
    apply String.eqb_neq in Hname. now rewrite Hname.
Qed.

(** ** More about the restart tool of the canonical server *)

(** X1.  Over a process table that can be scanned, the canonical restart
    tool always returns an outcome, never an exception; the status is
    "success" exactly when every match exits in time and the launch goes
    through, and "error" otherwise. *)
Theorem restart_succeeds_iff_every_step_does :
  forall (A : Type) (w : world) (arguments : A),
    scan_clean (process_iter w) = true ->
    exists out,
      ret (Canonical.handle_call_tool w "restart_claude" arguments)
      = inr (reply out)
      /\ (status out = "success" \/ status out = "error")
      /\ (status out = "success"
          <-> forallb exits_in_time (matched (process_iter w)) = true
              /\ popen w = None).
Proof.
  intros A w arguments Hclean.
  destruct (split_first_failure (matched (process_iter w)))
    as [Hall | (before & p & after & Hm & Hbefore & Hp)].
  - rewrite (canonical_call_all_exit w arguments Hclean Hall). cbn [ret].
    destruct (popen w) as [e|]; eexists; (split; [reflexivity|]);
      cbn [status]; split; auto; split; try discriminate; auto.
    intros [_ H]. discriminate H.
  - pose proof (forallb_exits_split before after p Hp) as Hnot.
    rewrite <- Hm in Hnot.
    apply raised_by_exits in Hp as [e He].
    rewrite (canonical_call_first_failure w arguments before after p e
               Hclean Hm Hbefore He). cbn [ret].
    eexists. split; [reflexivity|]. cbn [status].
    split; auto. split; [discriminate|].
    intros [H _]. rewrite H in Hnot. discriminate Hnot.
Qed.

(** X2.  When the matches before [p] exit in time and [p] does not, the
    canonical restart tool has signalled those matches and [p], in
    enumeration order, and no match after [p]; nothing is launched; and the
    message is the termination error of [p] alone, the entries of the
    matches that did exit being overwritten. *)
Theorem restart_stops_at_first_failure :
  forall (A : Type) (w : world) (arguments : A)
         (before after : list proc) (p : proc) (e : Py.exn),
    scan_clean (process_iter w) = true ->
    matched (process_iter w) = before ++ p :: after ->
    forallb exits_in_time before = true ->
    raised_by p = Some e ->
    let r := Canonical.handle_call_tool w "restart_claude" arguments in
    ret r = inr (reply (Outcome "error" (termination_error e)))
    /\ terminated_pids (trace r) = map pid before ++ [pid p]
    /\ popen_calls (trace r) = 0.
Proof.
  intros A w arguments before after p e Hclean Hm Hbefore Hp r. subst r.
  rewrite (canonical_call_first_failure w arguments before after p e
             Hclean Hm Hbefore Hp). cbn [ret trace].
  split; [reflexivity|]. split.
  - change (terminated_pids (signals before ++ failed_attempt p)
            = map pid before ++ [pid p]).
    now rewrite terminated_pids_app, terminated_pids_signals,
      terminated_pids_failed_attempt.
  - change (popen_calls (signals before ++ failed_attempt p) = 0).
    now rewrite popen_calls_app, popen_calls_signals, popen_calls_failed_attempt.
Qed.

Lemma legacy_scan_fault (before after : list proc) (p : proc) (e : Py.exn) :
  forallb skipped_by_legacy before = true ->
  info_name p = Raised e ->
  scan_skips e = false ->
  Legacy.scan (before ++ p :: after) = inl e.
Proof.
  intros Hbefore Hp He.
  induction before as [|q before IH]; simpl.
  - now rewrite Hp, He.
  - simpl in Hbefore. apply andb_true_iff in Hbefore as [Hq Hbefore].
    unfold skipped_by_legacy in Hq.
    destruct (info_name q) as [name|e'].
    + apply negb_true_iff in Hq. rewrite Hq. now apply IH.
    + rewrite Hq. now apply IH.
Qed.

(** X3.  An error of the scan that is neither [NoSuchProcess] nor
    [AccessDenied] leaves either restart tool as it is, before any process
    is signalled and before the launch: the canonical tool has only scanned
    by then.  (The legacy tool reaches its scan on a request that has a
    meta object.) *)
Theorem unexpected_scan_error_aborts_restart :
  forall (A : Type) (w : world) (arguments : A)
         (before after : list proc) (p : proc) (e : Py.exn),
    process_iter w = before ++ p :: after ->
    info_name p = Raised e ->
    scan_skips e = false ->
    (forallb readable before = true ->
     Canonical.handle_call_tool w "restart_claude" arguments
     = Run (inl e) [EvProcessIter])
    /\ (forall m : request_meta,
          request_context w = Request (Some m) ->
          forallb skipped_by_legacy before = true ->
          let r := Legacy.handle_call_tool w "restart_claude" arguments in
          ret r = inl e
          /\ terminated_pids (trace r) = []
          /\ popen_calls (trace r) = 0).
Proof.
  intros A w arguments before after p e Htable Hp He. split.
  - intros Hbefore.
    now apply canonical_call_scan_fault
      with (before := before) (after := after) (p := p).
  - intros m Hreq Hbefore.
    apply (legacy_call_scan_raises w arguments m e Hreq).
    rewrite Htable. now apply legacy_scan_fault.
Qed.

(** X4.  The canonical restart tool raises in two cases only: the tool name
    is not "restart_claude" (the unknown-tool [ValueError]), or reading a
    process name raised an error that the scan does not skip (that error,
    unchanged).  Failures of the termination and of the launch never leave
    it as exceptions. *)
Theorem restart_raises_only_for_unknown_tool_or_scan_error :
  forall (A : Type) (w : world) (name : string) (arguments : A) (e : Py.exn),
    ret (Canonical.handle_call_tool w name arguments) = inl e ->
    (name <> "restart_claude"
     /\ e = Py.Exn Py.ValueError ("Unknown tool: " ++ name))
    \/ (name = "restart_claude"
        /\ exists before p after,
             process_iter w = before ++ p :: after
             /\ forallb readable before = true
             /\ info_name p = Raised e
             /\ scan_skips e = false).
Proof.
  intros A w name arguments e Hraise.
  destruct (canonical_call_cases w name arguments)
    as [(Hname & Hr)
       | [(Hname & before & p & after & e' & Htable & Hbefore & Hp & He & Hr)
         | [(Hname & _ & _ & Hr)
           | (Hname & _ & before & p & after & e' & _ & _ & _ & Hr)]]];
    rewrite Hr in Hraise; cbn [ret] in Hraise; try discriminate Hraise.
  - left. split; [assumption|]. congruence.
  - right. split; [assumption|].
    assert (e' = e) as -> by congruence.
    now exists before, p, after.
Qed.

(** X5.  Whatever the process table, the tool name and the outcome, the
    processes that the canonical tool signals are the first few matches in
    enumeration order: a process whose name is not "Claude Desktop" is
    never signalled, and no match is skipped or signalled twice. *)
Theorem only_leading_matches_are_signalled :
  forall (A : Type) (w : world) (name : string) (arguments : A),
    exists k,
      terminated_pids (trace (Canonical.handle_call_tool w name arguments))
      = firstn k (map pid (matched (process_iter w))).
Proof.
  intros A w name arguments.
  destruct (canonical_call_cases w name arguments)
    as [(_ & Hr)
       | [(_ & before & p & after & e' & _ & _ & _ & _ & Hr)
         | [(_ & _ & _ & Hr)
           | (_ & _ & before & p & after & e' & Hm & _ & _ & Hr)]]];
    rewrite Hr; cbn [trace].
  - now exists 0.
  - now exists 0.
  - exists (List.length (map pid (matched (process_iter w)))).
    rewrite firstn_all.
    change (terminated_pids
              (signals (matched (process_iter w)) ++ [EvPopen launch_argv])
            = map pid (matched (process_iter w))).
    rewrite terminated_pids_app, terminated_pids_signals.
    apply app_nil_r.
  - exists (List.length (map pid before ++ [pid p])).
    change (terminated_pids (signals before ++ failed_attempt p)
            = firstn (List.length (map pid before ++ [pid p]))
                (map pid (matched (process_iter w)))).
    rewrite terminated_pids_app, terminated_pids_signals,
      terminated_pids_failed_attempt, Hm, map_app.
    change (map pid (p :: after)) with ([pid p] ++ map pid after).
    rewrite app_assoc, firstn_app, firstn_all, Nat.sub_diag.
    now rewrite firstn_0, app_nil_r.
Qed.

(** X6.  The canonical tool launches at most once in a call, with the
    command [open -a Claude], and the launch is the last thing it does:
    nothing is signalled, waited for or scanned after it. *)
Theorem launch_is_single_and_last :
  forall (A : Type) (w : world) (name : string) (arguments : A),
    let r := Canonical.handle_call_tool w name arguments in
    popen_calls (trace r) = 0
    \/ exists t,
         trace r = t ++ [EvPopen ["open"; "-a"; "Claude"]]
         /\ popen_calls t = 0.
Proof.
  intros A w name arguments r. subst r.
  destruct (canonical_call_cases w name arguments)
    as [(_ & Hr)
       | [(_ & before & p & after & e' & _ & _ & _ & _ & Hr)
         | [(_ & _ & _ & Hr)
           | (_ & _ & before & p & after & e' & Hm & _ & _ & Hr)]]];
    rewrite Hr; cbn [trace].
  - now left.
  - now left.
  - right. exists (EvProcessIter :: signals (matched (process_iter w))).
    split; [reflexivity|].
    exact (popen_calls_signals (matched (process_iter w))).
  - left.
    change (popen_calls (signals before ++ failed_attempt p) = 0).
    now rewrite popen_calls_app, popen_calls_signals, popen_calls_failed_attempt.
Qed.

Lemma matched_idempotent (table : list proc) :
  matched (matched table) = matched table.
Proof.
  unfold matched. induction table as [|p table IH]; [reflexivity|].
  simpl. destruct (matches_target p) eqn:Hp; [|exact IH].
  simpl. rewrite Hp. now f_equal.
Qed.

Lemma matched_scan_clean (table : list proc) : scan_clean (matched table) = true.
Proof.
  unfold scan_clean, matched. induction table as [|p table IH]; [reflexivity|].
  simpl. destruct (matches_target p) eqn:Hp; [|exact IH].
  simpl. rewrite IH, andb_true_r. unfold readable.
  unfold matches_target in Hp. now destruct (info_name p).
Qed.

(** X7.  Over a process table that can be scanned, the canonical restart
    tool depends on the matches only: with every other entry removed from
    the table (other names, vanished and inaccessible processes), it
    returns the same outcome after the same effects. *)
Theorem restart_ignores_other_processes :
  forall (A : Type) (w : world) (arguments : A),
    scan_clean (process_iter w) = true ->
    Canonical.handle_call_tool w "restart_claude" arguments
    = Canonical.handle_call_tool
        (with_table w (matched (process_iter w))) "restart_claude" arguments.
Proof.
  intros A w arguments Hclean.
  set (w' := with_table w (matched (process_iter w))).
  assert (Hclean' : scan_clean (process_iter w') = true)
    by apply matched_scan_clean.
  assert (Hm' : matched (process_iter w') = matched (process_iter w))
    by apply matched_idempotent.
  destruct (split_first_failure (matched (process_iter w)))
    as [Hall | (before & p & after & Hm & Hbefore & Hp)].
  - rewrite (canonical_call_all_exit w arguments Hclean Hall).
    rewrite (canonical_call_all_exit w' arguments Hclean');
      rewrite Hm'; [reflexivity | exact Hall].
  - apply raised_by_exits in Hp as [e He].
    rewrite (canonical_call_first_failure w arguments before after p e
               Hclean Hm Hbefore He).
    rewrite (canonical_call_first_failure w' arguments before after p e
               Hclean'); [reflexivity | now rewrite Hm' | assumption..].
Qed.

(** ** More about the status resource *)

Lemma marker_found (s : string) :
  Py.contains "Unknown resource" ("Unknown resource: " ++ s) = true.
Proof. exact (contains_prefix "Unknown resource" (": " ++ s)). Qed.

(** X8.  Reading the status has no side effect in either server: whatever
    the identifier and the process table, the handler does nothing, or
    scans the process table once; it never signals, waits or launches. *)
Theorem status_read_only_scans :
  forall (w : world) (uri : Py.arg),
    (trace (Canonical.handle_read_resource w uri) = []
     \/ trace (Canonical.handle_read_resource w uri) = [EvProcessIter])
    /\ (trace (Legacy.handle_read_resource w uri) = []
        \/ trace (Legacy.handle_read_resource w uri) = [EvProcessIter]).
Proof.
  intros w uri. split.
  - unfold Canonical.handle_read_resource, Canonical.read_status,
      Canonical.find_claude_processes.
    destruct uri as [u|repr].
    + destruct (negb (Py.startswith u "claude://")).
      * left. reflexivity.
      * destruct (String.eqb (Py.replace u "claude://" EmptyString) EmptyString
                  || negb (String.eqb (Py.replace u "claude://" EmptyString)
                             "status"))%bool.
        -- left.
           set (path := Py.replace u "claude://" EmptyString).
           unfold try_except, raise. cbn [ret trace Py.exn_str].
           rewrite marker_found. reflexivity.
        -- right.
           destruct (Canonical.scan (process_iter w) []) as [e|procs];
             run_step; [|reflexivity].
           destruct (Py.contains "Unknown resource" (Py.exn_str e));
             reflexivity.
    + left. reflexivity.
  - unfold Legacy.handle_read_resource, Legacy.find_claude_process.
    destruct (match uri with
              | Py.Str s => negb (String.eqb s "claude://status")
              | Py.Obj _ => true
              end).
    + left. reflexivity.
    + right.
      destruct (Legacy.scan (process_iter w)) as [e|found]; reflexivity.
Qed.

Lemma replace_from_without (old new s : string) :
  old <> EmptyString ->
  Py.contains old s = false ->
  Py.replace_from old new 0 s = s.
Proof.
  intros Hold. induction s as [|c s IH]; intros Hs; [reflexivity|].
  cbn [Py.contains] in Hs. apply orb_false_iff in Hs as [Hhere Hrest].
  cbn [Py.replace_from]. rewrite Hhere. now rewrite (IH Hrest).
Qed.

Lemma replace_scheme_prefix (s : string) :
  Py.replace ("claude://" ++ s) "claude://" EmptyString
  = Py.replace s "claude://" EmptyString.
Proof. destruct s; reflexivity. Qed.

(** X9.  For an identifier that has the scheme "claude://" at its start
    and nowhere else, the canonical server looks at what follows the
    scheme: anything but "status" is refused with
    [ValueError("Unknown resource: <rest>")], before the process table is
    scanned. *)
Theorem other_paths_are_unknown :
  forall (w : world) (rest : string),
    Py.contains "claude://" rest = false ->
    rest <> "status" ->
    Canonical.handle_read_resource w (Py.Str ("claude://" ++ rest))
    = Run (inl (Py.Exn Py.ValueError ("Unknown resource: " ++ rest))) [].
Proof.
  intros w rest Hrest Hpath.
  unfold Canonical.handle_read_resource, Canonical.read_status.
  unfold Py.startswith. rewrite prefix_append. cbn [negb].
  rewrite replace_scheme_prefix. unfold Py.replace.
  rewrite (replace_from_without "claude://" EmptyString rest);
    [|discriminate|assumption].
  apply String.eqb_neq in Hpath. rewrite Hpath, orb_true_r.
  unfold try_except, raise. cbn [ret trace Py.exn_str].
  rewrite marker_found. reflexivity.
Qed.

(** X10.  An identifier that is not a [str], or that does not start with
    "claude://", is refused by the canonical server with
    [ValueError("Unknown resource: Invalid URI scheme")], before the
    process table is scanned. *)
Theorem foreign_scheme_is_invalid :
  forall (w : world) (uri : Py.arg),
    (forall u, uri = Py.Str u -> Py.startswith u "claude://" = false) ->
    Canonical.handle_read_resource w uri
    = Run (inl (Py.Exn Py.ValueError "Unknown resource: Invalid URI scheme")) [].
Proof.
  intros w uri Hscheme.
  unfold Canonical.handle_read_resource, Canonical.read_status.
  destruct uri as [u|repr]; [|reflexivity].
  rewrite (Hscheme u eq_refl). reflexivity.
Qed.

Lemma replace_copies_scheme (n : nat) (s : string) :
  Py.replace (copies n "claude://" ++ s) "claude://" EmptyString
  = Py.replace s "claude://" EmptyString.
Proof.
  induction n as [|n IH]; [reflexivity|].
  cbn [copies]. rewrite append_assoc, replace_scheme_prefix. exact IH.
Qed.

Lemma startswith_copies_scheme (n : nat) (s : string) :
  Py.startswith (copies n "claude://" ++ "claude://" ++ s) "claude://" = true.
Proof.
  unfold Py.startswith. destruct n as [|n].
  - exact (prefix_append "claude://" s).
  - cbn [copies]. rewrite append_assoc. apply prefix_append.
Qed.

(** X11.  The canonical server removes every copy of the scheme from the
    identifier: "claude://status" with any number of further copies of
    "claude://" in front of it is answered exactly as "claude://status"
    is, over every process table. *)
Theorem repeated_scheme_is_served :
  forall (w : world) (n : nat),
    Canonical.handle_read_resource w
      (Py.Str (copies n "claude://" ++ "claude://status"))
    = Canonical.handle_read_resource w (Py.Str "claude://status").
Proof.
  intros w n. unfold Canonical.handle_read_resource. f_equal.
  change (copies n "claude://" ++ "claude://status")%string
    with (copies n "claude://" ++ "claude://" ++ "status")%string.
  unfold Canonical.read_status.
  rewrite (startswith_copies_scheme n "status"), replace_copies_scheme.
  reflexivity.
Qed.

(** ** More about the legacy server *)

(** X13.  On a request that has a meta object, when the legacy scan
    reaches a process [p] whose name has "Claude" in it, the legacy restart
    tool returns: an error with the text of the exception when signalling
    or waiting for [p] raises (a timeout included: there is no fixed
    "timeout" text here); otherwise the outcome of the launch, "success"
    with "Terminated existing Claude process. Started new Claude process."
    or an error with the text of what the launch raised. *)
Theorem legacy_restart_with_match :
  forall (A : Type) (w : world) (arguments : A) (m : request_meta)
         (before after : list proc) (p : proc),
    request_context w = Request (Some m) ->
    process_iter w = before ++ p :: after ->
    forallb skipped_by_legacy before = true ->
    matches_substring p = true ->
    ret (Legacy.handle_call_tool w "restart_claude" arguments)
    = inr (reply
             match raised_by p with
             | Some e =>
                 Outcome "error" ("Failed to terminate Claude: " ++ Py.exn_str e)
             | None =>
                 match popen w with
                 | None =>
                     Outcome "success"
                       "Terminated existing Claude process. Started new Claude process."
                 | Some e =>
                     Outcome "error" ("Failed to start Claude: " ++ Py.exn_str e)
                 end
             end).
Proof.
  intros A w arguments m before after p Hreq Htable Hbefore Hp.
  assert (Hscan : Legacy.scan (process_iter w) = inr (Some p))
    by (rewrite Htable; now apply legacy_scan_stops).
  exact (proj2 (proj2 (legacy_call_with_match w arguments m p Hreq Hscan))).
Qed.

(** X14.  On a request that has a meta object, when no process has
    "Claude" in its name, the legacy restart tool signals nothing and
    launches once; the outcome is "success" with
    "Started new Claude process.", or an error with the text of what the
    launch raised. *)
Theorem legacy_restart_without_match :
  forall (A : Type) (w : world) (arguments : A) (m : request_meta),
    request_context w = Request (Some m) ->
    scan_clean (process_iter w) = true ->
    matched_substring (process_iter w) = [] ->
    let r := Legacy.handle_call_tool w "restart_claude" arguments in
    ret r = inr (reply
                   match popen w with
                   | None => Outcome "success" "Started new Claude process."
                   | Some e =>
                       Outcome "error"
                         ("Failed to start Claude: " ++ Py.exn_str e)
                   end)
    /\ terminated_pids (trace r) = []
    /\ popen_calls (trace r) = 1.
Proof.
  intros A w arguments m Hreq Hclean Hnone r.
  assert (Hscan : Legacy.scan (process_iter w) = inr None)
    by (rewrite (legacy_scan_first _ Hclean), Hnone; reflexivity).
  destruct (legacy_call_without_match w arguments m Hreq Hscan)
    as (Hpids & Hcalls & Hret).
  now repeat split.
Qed.

(** X15.  The progress notifications of the legacy restart tool.  Reading
    the progress token of a request without a meta object raises an
    [AttributeError] before anything is done.  With a meta object and no
    token, or a falsy one (0 or the empty string), nothing is notified.
    With a truthy token, 0 of 2 is the first effect, before the scan; when
    the call ends before the launch nothing else is notified; and when the
    launch is reached, 1 of 2 comes directly before it and 2 of 2 directly
    after it, as the last effect, whether the launch raised or not. *)
Theorem legacy_progress_reports :
  forall (A : Type) (w : world) (arguments : A),
    let r := Legacy.handle_call_tool w "restart_claude" arguments in
    (request_context w = Request None ->
     r = Run (inl (Py.Exn Py.AttributeError
                     "'NoneType' object has no attribute 'progressToken'")) [])
    /\ forall m : request_meta,
         request_context w = Request (Some m) ->
         (Legacy.truthy (progressToken m) = false ->
          progress_sent (trace r) = [])
         /\ (Legacy.truthy (progressToken m) = true ->
             exists rest,
               trace r = EvProgress 0 2 :: EvProcessIter :: rest
               /\ ((popen_calls rest = 0 /\ progress_sent rest = [])
                   \/ exists sent,
                        rest = sent ++ [EvProgress 1 2;
                                        EvPopen ["open"; "-a"; "Claude"];
                                        EvProgress 2 2]
                        /\ popen_calls sent = 0
                        /\ progress_sent sent = [])).
Proof.
  intros A w arguments r. subst r. split.
  - intros Hreq. now apply legacy_call_without_meta.
  - intros m Hreq. split; intros Htoken.
    + destruct (Legacy.scan (process_iter w)) as [e|[p|]] eqn:Hscan;
        legacy_run Hreq Hscan; rewrite Htoken;
        try (destruct (terminate p) as [e1|]; [|destruct (wait p) as [e2|]]);
        try destruct (popen w) as [e3|]; reflexivity.
    + destruct (Legacy.scan (process_iter w)) as [e|[p|]] eqn:Hscan;
        legacy_run Hreq Hscan; rewrite Htoken.
      * eexists. split; [reflexivity|]. left. split; reflexivity.
      * destruct (terminate p) as [e1|]; [|destruct (wait p) as [e2|]].
        -- eexists. split; [reflexivity|]. left. split; reflexivity.
        -- eexists. split; [reflexivity|]. left. split; reflexivity.
        -- destruct (popen w) as [e3|];
             (eexists; split; [reflexivity|]; right;
              exists [EvTerminate (pid p); EvWait (pid p) 5];
              repeat split).
      * destruct (popen w) as [e3|];
          (eexists; split; [reflexivity|]; right; exists []; repeat split).
Qed.

Lemma exact_match_is_substring_match (p : proc) :
  matches_target p = true -> matches_substring p = true.
Proof.
  unfold matches_target, matches_substring.
  destruct (info_name p) as [name|e]; [|discriminate].
  intros H. apply String.eqb_eq in H. subst name. reflexivity.
Qed.

Lemma matched_substring_of_matched (table : list proc) :
  matched table <> [] -> matched_substring table <> [].
Proof.
  unfold matched, matched_substring.
  induction table as [|p table IH]; [easy|].
  simpl. destruct (matches_target p) eqn:Hp.
  - now rewrite (exact_match_is_substring_match p Hp).
  - intros H. destruct (matches_substring p); [discriminate | now apply IH].
Qed.

(** X16.  Over the same process table and clock the two servers agree on
    the timestamp, and the legacy server reports a running process
    whenever the canonical server does: every process named
    "Claude Desktop" has "Claude" in its name. *)
Theorem canonical_running_implies_legacy_running :
  forall w : world,
    scan_clean (process_iter w) = true ->
    exists canonical legacy,
      ret (Canonical.handle_read_resource w (Py.Str "claude://status"))
      = inr (Json.dumps None (status_dict canonical))
      /\ ret (Legacy.handle_read_resource w (Py.Str "claude://status"))
         = inr (Json.dumps (Some 2) (status_dict legacy))
      /\ timestamp canonical = timestamp legacy
      /\ (running canonical = true -> running legacy = true).
Proof.
  intros w Hclean.
  unfold Canonical.handle_read_resource.
  rewrite canonical_read_status_fixed, (canonical_find_matched w Hclean).
  unfold Legacy.handle_read_resource, Legacy.find_claude_process.
  cbn [String.eqb Ascii.eqb Bool.eqb negb].
  rewrite (legacy_scan_first _ Hclean). run_step.
  eexists. eexists. split; [reflexivity|]. split; [reflexivity|].
  split; [reflexivity|]. cbn [running].
  pose proof (matched_substring_of_matched (process_iter w)) as Hsub.
  destruct (matched (process_iter w)) as [|p procs]; [discriminate|].
  intros _.
  destruct (matched_substring (process_iter w)); [|reflexivity].
  now elim Hsub.
Qed.

(** ** The listings *)

Lemma legacy_call_returns {A} (w : world) (arguments : A) (m : request_meta) :
  request_context w = Request (Some m) ->
  scan_clean (process_iter w) = true ->
  exists out,
    ret (Legacy.handle_call_tool w "restart_claude" arguments) = inr (reply out).
Proof.
  intros Hreq Hclean.
  pose proof (legacy_scan_first _ Hclean) as Hscan.
  destruct (hd_error (matched_substring (process_iter w))) as [p|].
  - destruct (legacy_call_with_match w arguments m p Hreq Hscan)
      as (_ & _ & Hret).
    eexists. exact Hret.
  - destruct (legacy_call_without_match w arguments m Hreq Hscan)
      as (_ & _ & Hret).
    eexists. exact Hret.
Qed.

Lemma canonical_call_returns {A} (w : world) (arguments : A) :
  scan_clean (process_iter w) = true ->
  exists out,
    ret (Canonical.handle_call_tool w "restart_claude" arguments)
    = inr (reply out).
Proof.
  intros Hclean.
  destruct (split_first_failure (matched (process_iter w)))
    as [Hall | (before & p & after & Hm & Hbefore & Hp)].
  - rewrite (canonical_call_all_exit w arguments Hclean Hall).
    eexists. reflexivity.
  - apply raised_by_exits in Hp as [e He].
    rewrite (canonical_call_first_failure w arguments before after p e
               Hclean Hm Hbefore He).
    eexists. reflexivity.
Qed.

(** X17.  What the servers list against what they serve, over a process
    table that can be scanned.  The uri of a listed resource is a URL
    object: handed to [handle_read_resource] as it is, either server
    refuses it with an unknown-resource [ValueError], without scanning;
    the status is returned for its text.  Calling a listed tool by its name
    returns an outcome (in the legacy server, on a request that has a meta
    object); the listed tool declares no parameter. *)
Theorem listed_entries_are_served :
  forall (A : Type) (w : world) (arguments : A),
    scan_clean (process_iter w) = true ->
    (forall r, In r Canonical.handle_list_resources ->
               Canonical.handle_read_resource w (Resource.uri r)
               = Run (inl (Py.Exn Py.ValueError
                             "Unknown resource: Invalid URI scheme")) []
               /\ exists s,
                    ret (Canonical.handle_read_resource w
                           (Py.Str (Py.str (Resource.uri r)))) = inr s)
    /\ (forall t, In t Canonical.handle_list_tools ->
                  Tool.properties (Tool.inputSchema t) = []
                  /\ Tool.required (Tool.inputSchema t) = []
                  /\ exists out,
                       ret (Canonical.handle_call_tool w (Tool.name t) arguments)
                       = inr (reply out))
    /\ (forall r, In r Legacy.handle_list_resources ->
                  Legacy.handle_read_resource w (Resource.uri r)
                  = Run (inl (Py.Exn Py.ValueError
                                ("Unknown resource: " ++ Py.str (Resource.uri r))))
                      []
                  /\ exists s,
                       ret (Legacy.handle_read_resource w
                              (Py.Str (Py.str (Resource.uri r)))) = inr s)
    /\ (forall t, In t Legacy.handle_list_tools ->
                  Tool.properties (Tool.inputSchema t) = []
                  /\ Tool.required (Tool.inputSchema t) = []
                  /\ forall m : request_meta,
                       request_context w = Request (Some m) ->
                       exists out,
                         ret (Legacy.handle_call_tool w (Tool.name t) arguments)
                         = inr (reply out)).
Proof.
  intros A w arguments Hclean. split; [|split; [|split]].
  - intros r [<-|[]]. cbn [Resource.uri Py.str]. split; [reflexivity|].
    unfold Canonical.handle_read_resource.
    rewrite canonical_read_status_fixed, (canonical_find_matched w Hclean).
    run_step. eexists. reflexivity.
  - intros t [<-|[]].
    cbn [Tool.inputSchema Tool.properties Tool.required Tool.name].
    split; [reflexivity|]. split; [reflexivity|].
    now apply canonical_call_returns.
  - intros r [<-|[]]. cbn [Resource.uri Py.str]. split; [reflexivity|].
    unfold Legacy.handle_read_resource, Legacy.find_claude_process.
    cbn [String.eqb Ascii.eqb Bool.eqb negb].
    rewrite (legacy_scan_first _ Hclean). run_step. eexists. reflexivity.
  - intros t [<-|[]].
    cbn [Tool.inputSchema Tool.properties Tool.required Tool.name].
    split; [reflexivity|]. split; [reflexivity|].
    intros m Hreq. now apply legacy_call_returns with (m := m).
Qed.

(** ** The further theorems at the scenarios *)

Lemma restart_succeeds_iff_every_step_does_witness :
  scan_clean (process_iter Scenario.busy_table) = true
  /\ exists out,
       ret (Canonical.handle_call_tool Scenario.busy_table "restart_claude" tt)
       = inr (reply out)
       /\ (status out = "success" \/ status out = "error")
       /\ (status out = "success"
           <-> forallb exits_in_time (matched (process_iter Scenario.busy_table))
               = true
               /\ popen Scenario.busy_table = None).
Proof.
  split; [reflexivity|].
  apply (restart_succeeds_iff_every_step_does unit Scenario.busy_table tt).
  reflexivity.
Defined.

Lemma restart_stops_at_first_failure_witness :
  matched (process_iter Scenario.second_refuses)
  = [Scenario.claude_desktop 1000]
      ++ Proc 1001 (Named "Claude Desktop")
           (Some (Py.Exn Py.AccessDenied "psutil.AccessDenied (pid=1001)")) None
      :: [Scenario.claude_desktop 1002]
  /\ ret (Canonical.handle_call_tool Scenario.second_refuses "restart_claude" tt)
     = inr (reply (Outcome "error"
                     "Failed to terminate Claude: psutil.AccessDenied (pid=1001)"))
  /\ terminated_pids
       (trace (Canonical.handle_call_tool Scenario.second_refuses
                 "restart_claude" tt))
     = [1000; 1001]%Z
  /\ popen_calls
       (trace (Canonical.handle_call_tool Scenario.second_refuses
                 "restart_claude" tt))
     = 0.
Proof.
  split; [reflexivity|].
  apply (restart_stops_at_first_failure unit Scenario.second_refuses tt
           [Scenario.claude_desktop 1000] [Scenario.claude_desktop 1002]
           (Proc 1001 (Named "Claude Desktop")
              (Some (Py.Exn Py.AccessDenied "psutil.AccessDenied (pid=1001)"))
              None)
           (Py.Exn Py.AccessDenied "psutil.AccessDenied (pid=1001)"));
    reflexivity.
Defined.

Lemma unexpected_scan_error_aborts_restart_witness :
  Canonical.handle_call_tool Scenario.broken_entry "restart_claude" tt
  = Run (inl (Py.Exn Py.RuntimeError "'name'")) [EvProcessIter]
  /\ ret (Legacy.handle_call_tool Scenario.broken_entry "restart_claude" tt)
     = inl (Py.Exn Py.RuntimeError "'name'")
  /\ terminated_pids
       (trace (Legacy.handle_call_tool Scenario.broken_entry "restart_claude" tt))
     = []
  /\ popen_calls
       (trace (Legacy.handle_call_tool Scenario.broken_entry "restart_claude" tt))
     = 0.
Proof.
  destruct (unexpected_scan_error_aborts_restart unit Scenario.broken_entry tt
              [Proc 1 (Named "launchd") None None]
              [Scenario.claude_desktop 1002]
              (Proc 7 (Raised (Py.Exn Py.RuntimeError "'name'")) None None)
              (Py.Exn Py.RuntimeError "'name'")
              eq_refl eq_refl eq_refl) as [Hcanonical Hlegacy].
  split; [exact (Hcanonical eq_refl)|].
  exact (Hlegacy (Meta (Some (TokenStr "t-1"))) eq_refl eq_refl).
Defined.

Lemma restart_raises_only_for_unknown_tool_or_scan_error_witness :
  ret (Canonical.handle_call_tool Scenario.broken_entry "restart_claude" tt)
  = inl (Py.Exn Py.RuntimeError "'name'")
  /\ (("restart_claude" <> "restart_claude"
       /\ Py.Exn Py.RuntimeError "'name'"
          = Py.Exn Py.ValueError ("Unknown tool: " ++ "restart_claude"))
      \/ ("restart_claude" = "restart_claude"
          /\ exists before p after,
               process_iter Scenario.broken_entry = before ++ p :: after
               /\ forallb readable before = true
               /\ info_name p = Raised (Py.Exn Py.RuntimeError "'name'")
               /\ scan_skips (Py.Exn Py.RuntimeError "'name'") = false)).
Proof.
  split; [reflexivity|].
  apply (restart_raises_only_for_unknown_tool_or_scan_error unit
           Scenario.broken_entry "restart_claude" tt
           (Py.Exn Py.RuntimeError "'name'")).
  reflexivity.
Defined.

Lemma restart_ignores_other_processes_witness :
  scan_clean (process_iter Scenario.busy_table) = true
  /\ Canonical.handle_call_tool Scenario.busy_table "restart_claude" tt
     = Canonical.handle_call_tool
         (with_table Scenario.busy_table
            [Scenario.claude_desktop 1000; Scenario.claude_desktop 1001])
         "restart_claude" tt.
Proof.
  split; [reflexivity|].
  apply (restart_ignores_other_processes unit Scenario.busy_table tt).
  reflexivity.
Defined.

Lemma other_paths_are_unknown_witness :
  Py.contains "claude://" "status/extra" = false
  /\ "status/extra" <> "status"
  /\ Canonical.handle_read_resource Scenario.one_process
       (Py.Str "claude://status/extra")
     = Run (inl (Py.Exn Py.ValueError "Unknown resource: status/extra")) [].
Proof.
  split; [reflexivity|]. split; [discriminate|].
  apply (other_paths_are_unknown Scenario.one_process "status/extra");
    [reflexivity | discriminate].
Defined.

Lemma foreign_scheme_is_invalid_witness :
  Py.startswith "http://status" "claude://" = false
  /\ Canonical.handle_read_resource Scenario.one_process (Py.Str "http://status")
     = Run (inl (Py.Exn Py.ValueError "Unknown resource: Invalid URI scheme")) []
  /\ Canonical.handle_read_resource Scenario.one_process (Py.Obj "claude://status")
     = Run (inl (Py.Exn Py.ValueError "Unknown resource: Invalid URI scheme")) [].
Proof.
  split; [reflexivity|]. split.
  - apply (foreign_scheme_is_invalid Scenario.one_process (Py.Str "http://status")).
    intros u H. injection H as <-. reflexivity.
  - apply (foreign_scheme_is_invalid Scenario.one_process (Py.Obj "claude://status")).
    intros u H. discriminate H.
Defined.

Lemma legacy_unknown_resource_rejected_witness :
  Py.Str "unknown://x" <> Py.Str "claude://status"
  /\ Legacy.handle_read_resource Scenario.one_process (Py.Str "unknown://x")
     = Run (inl (Py.Exn Py.ValueError "Unknown resource: unknown://x")) [].
Proof.
  split; [discriminate|].
  apply (legacy_unknown_resource_rejected Scenario.one_process
           (Py.Str "unknown://x")).
  discriminate.
Defined.

Lemma legacy_restart_with_match_witness :
  request_context Scenario.helper_behind_hung_claude = Request (Some (Meta None))
  /\ ret (Legacy.handle_call_tool Scenario.helper_behind_hung_claude
            "restart_claude" tt)
     = inr (reply (Outcome "error"
                     "Failed to terminate Claude: timeout after 5 seconds (pid=12345)")).
Proof.
  split; [reflexivity|].
  apply (legacy_restart_with_match unit Scenario.helper_behind_hung_claude tt
           (Meta None)
           [Proc 10 (Named "launchd") None None]
           [Proc 21 (Named "Claude Helper") None None]
           (Proc 20 (Named "Claude") None (Some Scenario.timeout)));
    reflexivity.
Defined.

Lemma legacy_restart_without_match_witness :
  request_context Scenario.no_process = Request (Some (Meta None))
  /\ scan_clean (process_iter Scenario.no_process) = true
  /\ matched_substring (process_iter Scenario.no_process) = []
  /\ ret (Legacy.handle_call_tool Scenario.no_process "restart_claude" tt)
     = inr (reply (Outcome "success" "Started new Claude process."))
  /\ terminated_pids
       (trace (Legacy.handle_call_tool Scenario.no_process "restart_claude" tt))
     = []
  /\ popen_calls
       (trace (Legacy.handle_call_tool Scenario.no_process "restart_claude" tt))
     = 1.
Proof.
  split; [reflexivity|]. split; [reflexivity|]. split; [reflexivity|].
  apply (legacy_restart_without_match unit Scenario.no_process tt (Meta None));
    reflexivity.
Defined.

Lemma legacy_progress_reports_witness :
  Legacy.handle_call_tool Scenario.request_without_meta "restart_claude" tt
  = Run (inl (Py.Exn Py.AttributeError
                "'NoneType' object has no attribute 'progressToken'")) []
  /\ progress_sent
       (trace (Legacy.handle_call_tool Scenario.helper_behind_hung_claude
                 "restart_claude" tt))
     = []
  /\ exists rest,
       trace (Legacy.handle_call_tool Scenario.helper_behind_claude
                "restart_claude" tt)
       = EvProgress 0 2 :: EvProcessIter :: rest
       /\ ((popen_calls rest = 0 /\ progress_sent rest = [])
           \/ exists sent,
                rest = sent ++ [EvProgress 1 2;
                                EvPopen ["open"; "-a"; "Claude"];
                                EvProgress 2 2]
                /\ popen_calls sent = 0
                /\ progress_sent sent = []).
Proof.
  split; [|split].
  - exact (proj1 (legacy_progress_reports unit Scenario.request_without_meta tt)
             eq_refl).
  - exact (proj1 (proj2 (legacy_progress_reports unit
                           Scenario.helper_behind_hung_claude tt)
                    (Meta None) eq_refl) eq_refl).
  - exact (proj2 (proj2 (legacy_progress_reports unit
                           Scenario.helper_behind_claude tt)
                    (Meta (Some (TokenInt 7))) eq_refl) eq_refl).
Defined.

Lemma canonical_running_implies_legacy_running_witness :
  scan_clean (process_iter Scenario.busy_table) = true
  /\ exists canonical legacy,
       ret (Canonical.handle_read_resource Scenario.busy_table
              (Py.Str "claude://status"))
       = inr (Json.dumps None (status_dict canonical))
       /\ ret (Legacy.handle_read_resource Scenario.busy_table
                 (Py.Str "claude://status"))
          = inr (Json.dumps (Some 2) (status_dict legacy))
       /\ timestamp canonical = timestamp legacy
       /\ (running canonical = true -> running legacy = true).
Proof.
  split; [reflexivity|].
  apply (canonical_running_implies_legacy_running Scenario.busy_table).
  reflexivity.
Defined.

Lemma listed_entries_are_served_witness :
  scan_clean (process_iter Scenario.one_process) = true
  /\ Canonical.handle_read_resource Scenario.one_process
       (Py.Obj "claude://status")
     = Run (inl (Py.Exn Py.ValueError "Unknown resource: Invalid URI scheme")) []
  /\ (exists s,
         ret (Canonical.handle_read_resource Scenario.one_process
                (Py.Str "claude://status")) = inr s)
  /\ (exists out,
         ret (Canonical.handle_call_tool Scenario.one_process
                "restart_claude" tt) = inr (reply out))
  /\ Legacy.handle_read_resource Scenario.one_process (Py.Obj "claude://status")
     = Run (inl (Py.Exn Py.ValueError "Unknown resource: claude://status")) []
  /\ (exists s,
         ret (Legacy.handle_read_resource Scenario.one_process
                (Py.Str "claude://status")) = inr s)
  /\ (exists out,
         ret (Legacy.handle_call_tool Scenario.one_process
                "restart_claude" tt) = inr (reply out)).
Proof.
  split; [reflexivity|].
  destruct (listed_entries_are_served unit Scenario.one_process tt eq_refl)
    as (Hcr & Hct & Hlr & Hlt).
  split; [exact (proj1 (Hcr _ (or_introl eq_refl)))|].
  split; [exact (proj2 (Hcr _ (or_introl eq_refl)))|].
  split; [exact (proj2 (proj2 (Hct _ (or_introl eq_refl))))|].
  split; [exact (proj1 (Hlr _ (or_introl eq_refl)))|].
  split; [exact (proj2 (Hlr _ (or_introl eq_refl)))|].
  exact (proj2 (proj2 (Hlt _ (or_introl eq_refl))) (Meta None) eq_refl).
Defined.
